(** * tap_s3_csv.sync : a shallow embedding of [src/tap_s3_csv/sync.py]

    The module drives one table sync: it lists the files of a table that are
    newer than the [modified_since] bookmark, sorts them by [last_modified],
    streams every row of every file as a Singer RECORD message stamped with
    the file's modification time as [sequence], and writes the bookmark and
    the state after each file.

    Modelling choices.
    - Python values are [pyval]; a Python [dict] is an association list
      [dict] with Python's insertion order ([dict_set] overwrites in place or
      appends, as [d[k] = v] does).
    - A [datetime] is its UTC instant in microseconds since the epoch
      ([Z]); aware datetimes compare by instant, as Python does.
    - Collaborators of the module (the S3 client, [strptime_with_tz],
      [isoformat], [importlib.import_module], the encoding module's
      [get_row_iterator], the Singer [Transformer]) are section variables.
    - Output is a trace of [event]s: the messages written by
      [singer.write_message], the states written by [singer.write_state],
      the calls to [importlib.import_module] and the warnings logged.
      [LOGGER.info] lines and [csv.field_size_limit] (a process-wide parser
      setting) have no counterpart.
    - A raised exception is [Err]; the state dict passed to [sync_stream]
      is mutated in place by [singer.write_bookmark], so the caller sees the
      mutated state also when the sync raises. *)

From Stdlib Require Import List String ZArith Lia Sorting.Sorted
  Sorting.Permutation Bool.
From Stdlib Require Import Ascii DecimalString FunctionalExtensionality.
Import ListNotations.
Set Warnings "-register-all".
Open Scope string_scope.
Open Scope Z_scope.

(** ** Python values and dicts *)

Inductive pyval : Type :=
| PNone
| PBool (b : bool)
| PInt (z : Z)
| PStr (s : string)
| PList (l : list pyval)
| PDict (d : list (string * pyval)).

Definition dict := list (string * pyval).

(** Induction on Python values, through the items of lists and dicts. *)
Section PyvalInd.
Variable P : pyval -> Prop.
Hypothesis HNone : P PNone.
Hypothesis HBool : forall b, P (PBool b).
Hypothesis HInt : forall z, P (PInt z).
Hypothesis HStr : forall s, P (PStr s).
Hypothesis HList : forall l, Forall P l -> P (PList l).
Hypothesis HDict : forall d, Forall (fun kv => P (snd kv)) d -> P (PDict d).

Fixpoint pyval_ind' (v : pyval) : P v :=
  match v with
  | PNone => HNone
  | PBool b => HBool b
  | PInt z => HInt z
  | PStr s => HStr s
  | PList l =>
      HList l ((fix go (l : list pyval) : Forall P l :=
                  match l with
                  | [] => Forall_nil P
                  | x :: l' => Forall_cons x (pyval_ind' x) (go l')
                  end) l)
  | PDict d =>
      HDict d ((fix go (d : list (string * pyval))
                  : Forall (fun kv => P (snd kv)) d :=
                  match d with
                  | [] => Forall_nil _
                  | (k, x) :: d' => Forall_cons (k, x) (pyval_ind' x) (go d')
                  end) d)
  end.
End PyvalInd.

(** [d.get(k)]: the value stored under [k], if any. *)
Fixpoint dict_get (d : dict) (k : string) : option pyval :=
  match d with
  | [] => None
  | (k', v) :: d' => if String.eqb k k' then Some v else dict_get d' k
  end.

Definition dict_mem (d : dict) (k : string) : bool :=
  match dict_get d k with Some _ => true | None => false end.

(** [d[k] = v]: overwrite the entry of [k] where it stands, or append. *)
Fixpoint dict_set (d : dict) (k : string) (v : pyval) : dict :=
  match d with
  | [] => [(k, v)]
  | (k', v') :: d' =>
      if String.eqb k k' then (k', v) :: d' else (k', v') :: dict_set d' k v
  end.

(** [{**a, **b}]: start from [a], then assign every entry of [b] in order. *)
Definition dict_merge (a b : dict) : dict :=
  fold_left (fun acc '(k, v) => dict_set acc k v) b a.

(** Python truthiness, used by [x or y]. *)
Definition truthy (v : pyval) : bool :=
  match v with
  | PNone => false
  | PBool b => b
  | PInt z => negb (z =? 0)
  | PStr s => negb (String.eqb s "")
  | PList l => match l with [] => false | _ => true end
  | PDict d => match d with [] => false | _ => true end
  end.

(** ** Exceptions and the trace/error monad *)

Inductive exn : Type :=
| KeyError (k : string)
| TypeError
| AttributeError
| ExternalError (what : string).   (** raised inside a collaborator *)

Inductive result (A : Type) : Type :=
| Ok (a : A)
| Err (e : exn).
Arguments Ok {A} a.
Arguments Err {A} e.

(** A datetime: its UTC instant in microseconds since the epoch. *)
Definition datetime := Z.

(** [int(d.timestamp())]: the instant in seconds, truncated toward zero
    by [int] (the float rounding of [timestamp()] is not modelled). *)
Definition timestamp_int (d : datetime) : Z := Z.quot d 1000000.

(** A file descriptor as returned by [s3.get_input_files_for_table]. *)
Record s3file := S3File { key : string; last_modified : datetime; size : Z }.

(** A table specification of the configuration. *)
Record table_spec := TableSpec { table_name : string; spec_fields : dict }.

(** A catalog stream entry: its JSON schema and its metadata list. *)
Record stream_entry := StreamEntry { schema : pyval; metadata : pyval }.

(** Singer's [RecordMessage]. *)
Record record_message := RecordMessage {
  rm_stream : string;
  rm_record : dict;
  rm_version : option pyval;
  rm_time_extracted : option string  (** already formatted by [strftime] *)
}.

(** [RecordMessage.asdict] of singer-python. *)
Definition record_message_asdict (m : record_message) : dict :=
  let result := [("type", PStr "RECORD"); ("stream", PStr (rm_stream m));
                 ("record", PDict (rm_record m))] in
  let result := match rm_version m with
                | Some v => dict_set result "version" v
                | None => result end in
  match rm_time_extracted m with
  | Some t => dict_set result "time_extracted" (PStr t)  (** a datetime is truthy *)
  | None => result
  end.

(** [RecordMessageWithSequence]: the wrapped message and
    [int(last_modified.timestamp())]. *)
Record record_message_with_sequence := RecordMessageWithSequence_ {
  rms_message : record_message;
  rms_last_modified : Z
}.

Definition RecordMessageWithSequence (message : record_message)
  (last_modified : datetime) : record_message_with_sequence :=
  RecordMessageWithSequence_ message (timestamp_int last_modified).

(** [RecordMessageWithSequence.asdict]. *)
Definition rms_asdict (m : record_message_with_sequence) : dict :=
  let result := record_message_asdict (rms_message m) in
  dict_set result "sequence" (PInt (rms_last_modified m)).

(** *** [__str__] and [__repr__] of [RecordMessageWithSequence]

    [str] of the message is Python's [repr] of its [asdict] dict; [repr]
    lists [k=str(v)] for every entry of [asdict]. A character of a
    [string] is read as the code point with the same number (Latin-1).
    [repr] of a [str] follows CPython's [unicode_repr]: the quote is the
    single quote, unless the text holds a single quote and no double
    quote; the quote and the backslash are escaped with a backslash; tab,
    newline and carriage return are written [\t], [\n], [\r]; the other
    code points that are not printable (below 32, 127 to 160, and 173)
    are written [\xhh]. *)

(** [Py_UNICODE_ISPRINTABLE] on the code points below 256. *)
Definition py_printable (n : nat) : bool :=
  (Nat.leb 32 n && Nat.ltb n 127) || (Nat.leb 161 n && negb (Nat.eqb n 173)).

Definition hex_digits : string := "0123456789abcdef".

Definition hex_digit (n : nat) : ascii :=
  match String.get n hex_digits with Some c => c | None => "0"%char end.

Definition backslash : ascii := "\"%char.
Definition squote : ascii := "'"%char.
Definition dquote : ascii := "034"%char.

(** The escape of one character inside quotes [quote]. *)
Definition repr_char (quote c : ascii) : string :=
  let n := nat_of_ascii c in
  if Ascii.eqb c quote || Ascii.eqb c backslash
  then String backslash (String c EmptyString)
  else if Nat.eqb n 9 then String backslash (String "t"%char EmptyString)
  else if Nat.eqb n 10 then String backslash (String "n"%char EmptyString)
  else if Nat.eqb n 13 then String backslash (String "r"%char EmptyString)
  else if py_printable n then String c EmptyString
  else String backslash (String "x"%char
         (String (hex_digit (Nat.div n 16))
           (String (hex_digit (Nat.modulo n 16)) EmptyString))).

Fixpoint repr_body (quote : ascii) (s : string) : string :=
  match s with
  | EmptyString => EmptyString
  | String c s' => repr_char quote c ++ repr_body quote s'
  end.

Fixpoint has_char (c : ascii) (s : string) : bool :=
  match s with
  | EmptyString => false
  | String c' s' => Ascii.eqb c c' || has_char c s'
  end.

(** [repr(s)] for a [str]. *)
Definition repr_str (s : string) : string :=
  let quote := if has_char squote s && negb (has_char dquote s)
               then dquote else squote in
  String quote (repr_body quote s ++ String quote EmptyString).

(** [str(z)] and [repr(z)] of an [int]. *)
Definition str_int (z : Z) : string := NilZero.string_of_int (Z.to_int z).

(** [repr(v)]: lists and dicts join the [repr] of their items with
    [", "]; a dict writes [repr(k): repr(v)]. *)
Fixpoint py_repr (v : pyval) : string :=
  match v with
  | PNone => "None"
  | PBool b => if b then "True" else "False"
  | PInt z => str_int z
  | PStr s => repr_str s
  | PList l => "[" ++ String.concat ", " (map py_repr l) ++ "]"
  | PDict d =>
      "{" ++ String.concat ", "
               (map (fun '(k, v) => repr_str k ++ ": " ++ py_repr v) d) ++ "}"
  end.

(** [str(v)], which is also ["{}".format(v)]: a [str] is itself, every
    other value its [repr]. *)
Definition py_str (v : pyval) : string :=
  match v with PStr s => s | _ => py_repr v end.

(** [RecordMessageWithSequence.__str__]: [str(self.asdict())]. *)
Definition rms_str (m : record_message_with_sequence) : string :=
  py_repr (PDict (rms_asdict m)).

(** [RecordMessageWithSequence.__repr__]: the class name, then the
    entries of [asdict] written ["{}={}".format(k, v)] and joined with
    [", "], in parentheses. *)
Definition rms_repr (m : record_message_with_sequence) : string :=
  let pairs := map (fun '(k, v) => k ++ "=" ++ py_str v) (rms_asdict m) in
  let attrstr := String.concat ", " pairs in
  "RecordMessageWithSequence" ++ "(" ++ attrstr ++ ")".

(** The text holds no line feed (10) and no carriage return (13). *)
Fixpoint line_free (s : string) : bool :=
  match s with
  | EmptyString => true
  | String c s' =>
      negb (Nat.eqb (nat_of_ascii c) 10) && negb (Nat.eqb (nat_of_ascii c) 13)
      && line_free s'
  end.

(** Observable effects. *)
Inductive event : Type :=
| EvMessage (m : dict)        (** [singer.write_message]: the message dict *)
| EvWriteState (st : dict)    (** [singer.write_state]: the state written *)
| EvImportModule (name : pyval) (** a call of [importlib.import_module] *)
| EvWarning (name : pyval).   (** [LOGGER.warning] naming the module *)

(** Computations that emit events and may raise. *)
Definition T (A : Type) : Type := (list event * result A)%type.

Definition ret {A} (a : A) : T A := ([], Ok a).
Definition raise {A} (e : exn) : T A := ([], Err e).
Definition emit (ev : event) : T unit := ([ev], Ok tt).
Definition lift {A} (r : result A) : T A := ([], r).

Definition bind {A B} (m : T A) (k : A -> T B) : T B :=
  match m with
  | (tr, Err e) => (tr, Err e)
  | (tr, Ok a) => let '(tr', r) := k a in ((tr ++ tr')%list, r)
  end.

Notation "x <- m ;; k" := (bind m (fun x => k))
  (at level 61, m at next level, right associativity).
Notation "m ;;; k" := (bind m (fun _ => k))
  (at level 61, right associativity).

(** [d[k]] on a dict: [KeyError] when absent. *)
Definition getitem (d : dict) (k : string) : result pyval :=
  match dict_get d k with Some v => Ok v | None => Err (KeyError k) end.

(** Every event emitted by [m] satisfies [P]. *)
Definition all_events {A} (P : event -> Prop) (m : T A) : Prop :=
  Forall P (fst m).

(** ** singer-python bookmarks *)

(** [state.get(k, {})] followed by a method call on the result: a value that
    is not a dict has no [get] ([AttributeError]). *)
Definition get_sub (d : dict) (k : string) : result dict :=
  match dict_get d k with
  | None => Ok []
  | Some (PDict d') => Ok d'
  | Some _ => Err AttributeError
  end.

(** [singer.get_bookmark(state, tap_stream_id, key)]:
    [state.get('bookmarks', {}).get(tap_stream_id, {}).get(key, None)]. *)
Definition get_bookmark (state : dict) (tap_stream_id key : string)
  : result pyval :=
  match get_sub state "bookmarks" with
  | Err e => Err e
  | Ok bms =>
      match get_sub bms tap_stream_id with
      | Err e => Err e
      | Ok tb => match dict_get tb key with Some v => Ok v | None => Ok PNone end
      end
  end.

(** One step of [ensure_bookmark_path]: a missing or [None] component is
    replaced by [{}]; the component is then used as the next submap. *)
Definition ensure_sub (d : dict) (k : string) : option pyval :=
  match dict_get d k with
  | None | Some PNone => None
  | Some v => Some v
  end.

(** [singer.write_bookmark(state, tap_stream_id, key, val)]: ensure the path
    [bookmarks/tap_stream_id], then [state['bookmarks'][tap_stream_id][key]
    = val]. A component that is neither a dict nor [None] makes the walk
    raise before anything is assigned. Returns the mutated state. *)
Definition write_bookmark (state : dict) (tap_stream_id key : string)
  (val : pyval) : result dict :=
  let bms := match ensure_sub state "bookmarks" with
             | None => Ok []
             | Some (PDict d) => Ok d
             | Some _ => Err AttributeError   (** [submap.get] on a non-dict *)
             end in
  match bms with
  | Err e => Err e
  | Ok bms =>
      let tb := match ensure_sub bms tap_stream_id with
                | None => Ok []
                | Some (PDict d) => Ok d
                | Some _ => Err TypeError   (** item assignment on a non-dict *)
                end in
      match tb with
      | Err e => Err e
      | Ok tb =>
          Ok (dict_set state "bookmarks"
                (PDict (dict_set bms tap_stream_id (PDict (dict_set tb key val)))))
      end
  end.

(** Reserved column names, [s3.SDC_SOURCE_*_COLUMN]. *)
Definition SDC_SOURCE_BUCKET_COLUMN := "_sdc_source_bucket".
Definition SDC_SOURCE_FILE_COLUMN := "_sdc_source_file".
Definition SDC_SOURCE_LINENO_COLUMN := "_sdc_source_lineno".

(** The rows produced by an encoding module's [get_row_iterator]: a finite
    lazy sequence of dicts, which may raise when the next row is pulled
    (decode error, storage read error). *)
Inductive rows : Type :=
| RNil
| RCons (row : dict) (rest : rows)
| RFault (e : exn).

(** The result of [importlib.import_module(name)]. *)
Inductive import_result (module : Type) : Type :=
| Imported (m : module)
| ModuleNotFoundError
| ImportRaised (e : exn).  (** any other exception of the import *)
Arguments Imported {module} m.
Arguments ModuleNotFoundError {module}.
Arguments ImportRaised {module} e.

(** ** Stable sort by [last_modified]

    [sorted(s3_files, key=lambda item: item["last_modified"])]. Python's
    [sorted] is stable and compares keys with [<]; every stable sort returns
    the same list, and insertion sort is the one written here: each file
    is inserted in front of the first file of the sorted tail whose key is
    not smaller. *)
Fixpoint insert_by_lm (x : s3file) (l : list s3file) : list s3file :=
  match l with
  | [] => [x]
  | y :: l' => if last_modified x <=? last_modified y then x :: l
               else y :: insert_by_lm x l'
  end.

Fixpoint sort_by_lm (l : list s3file) : list s3file :=
  match l with
  | [] => []
  | x :: l' => insert_by_lm x (sort_by_lm l')
  end.

(** The collaborators of the module: the encoding modules, the S3 client,
    the Singer transformer, and date parsing and formatting. *)
Record collaborators (module file_handle metadata_map : Type) := {
  (** [singer_encodings.csv], the default encoding module. *)
  singer_encodings_csv : module;
  (** [importlib.import_module(name)]. *)
  import_module : pyval -> import_result module;
  (** [encoding_module.get_row_iterator(raw_stream, table_spec)]: may raise
      at once, or yield rows lazily and raise at a later row. *)
  get_row_iterator : module -> file_handle -> table_spec -> result rows;
  (** [s3.get_file_handle(config, s3_path)]. *)
  get_file_handle : dict -> string -> result file_handle;
  (** [s3.get_input_files_for_table(config, table_spec, modified_since)]. *)
  get_input_files_for_table :
    dict -> table_spec -> datetime -> result (list s3file);
  (** [Transformer().transform(rec, schema, metadata_map)]. *)
  transform : dict -> pyval -> metadata_map -> result dict;
  (** [metadata.to_map]. *)
  to_map : pyval -> metadata_map;
  (** [utils.strptime_with_tz]. *)
  strptime_with_tz : pyval -> result datetime;
  (** [datetime.isoformat]. *)
  isoformat : datetime -> string
}.
Arguments singer_encodings_csv {_ _ _} _.
Arguments import_module {_ _ _} _ _.
Arguments get_row_iterator {_ _ _} _ _ _ _.
Arguments get_file_handle {_ _ _} _ _ _.
Arguments get_input_files_for_table {_ _ _} _ _ _ _.
Arguments transform {_ _ _} _ _ _ _.
Arguments to_map {_ _ _} _ _.
Arguments strptime_with_tz {_ _ _} _ _.
Arguments isoformat {_ _ _} _ _.

(** Non-decreasing [last_modified]. *)
Definition lm_le (a b : s3file) : Prop := last_modified a <= last_modified b.

(** The files with a given [last_modified]. *)
Definition same_lm (d : datetime) (f : s3file) : bool := last_modified f =? d.

Section Sync.
Context {module file_handle metadata_map : Type}.
Variable E : collaborators module file_handle metadata_map.

(** Resolution of the encoding module, lines 64-73 of [sync_table_file]. *)
Definition resolve_encoding_module (config : dict) : T module :=
  match dict_get config "encoding_module" with
  | None => ret (singer_encodings_csv E)
  | Some name =>
      emit (EvImportModule name) ;;;
      match import_module E name with
      | Imported m => ret m
      | ModuleNotFoundError =>
          emit (EvWarning name) ;;; ret (singer_encodings_csv E)
      | ImportRaised e => raise e
      end
  end.

(** The row merged with the reserved columns, lines 82-88:
    [{**row, **custom_columns}] with line number [records_synced + 2]. *)
Definition custom_columns (bucket : pyval) (s3_path : string)
  (records_synced : Z) : dict :=
  [(SDC_SOURCE_BUCKET_COLUMN, bucket);
   (SDC_SOURCE_FILE_COLUMN, PStr s3_path);
   (SDC_SOURCE_LINENO_COLUMN, PInt (records_synced + 2))].

Definition enrich (row : dict) (bucket : pyval) (s3_path : string)
  (records_synced : Z) : dict :=
  dict_merge row (custom_columns bucket s3_path records_synced).

(** The message written for one transformed record, lines 95-99. *)
Definition record_event (table_name : string) (to_write : dict)
  (last_modified : datetime) : event :=
  EvMessage (rms_asdict (RecordMessageWithSequence
    (RecordMessage table_name to_write None None) last_modified)).

(** The [for row in iterator] loop of [sync_table_file]. *)
Fixpoint sync_rows (bucket : pyval) (s3_path : string) (table_name : string)
  (stream : stream_entry) (last_modified : datetime) (iterator : rows)
  (records_synced : Z) : T Z :=
  match iterator with
  | RNil => ret records_synced
  | RFault e => raise e
  | RCons row rest =>
      let rec_ := enrich row bucket s3_path records_synced in
      to_write <- lift (transform E rec_ (schema stream) (to_map E (metadata stream))) ;;
      emit (record_event table_name to_write last_modified) ;;;
      sync_rows bucket s3_path table_name stream last_modified rest
        (records_synced + 1)
  end.

(** Lines 75-102, once the module is resolved. *)
Definition sync_file_with (encoding_module : module) (bucket : pyval)
  (h : file_handle) (s3_path : string) (table_spec : table_spec)
  (stream : stream_entry) (last_modified : datetime) : T Z :=
  iterator <- lift (get_row_iterator E encoding_module h table_spec) ;;
  sync_rows bucket s3_path (table_name table_spec) stream last_modified
    iterator 0.

(** [sync_table_file(config, s3_path, table_spec, stream, last_modified)]. *)
Definition sync_table_file (config : dict) (s3_path : string)
  (table_spec : table_spec) (stream : stream_entry) (last_modified : datetime)
  : T Z :=
  bucket <- lift (getitem config "bucket") ;;
  h <- lift (get_file_handle E config s3_path) ;;
  encoding_module <- resolve_encoding_module config ;;
  sync_file_with encoding_module bucket h s3_path table_spec stream
    last_modified.

(** The bookmark written after a file, lines 38-40. *)
Definition commit (table_name : string) (state : dict) (f : s3file)
  : result dict :=
  write_bookmark state table_name "modified_since"
    (PStr (isoformat E (last_modified f))).

(** The [for s3_file in sorted(...)] loop of [sync_stream]: the state dict
    is threaded through and returned also when the loop raises. *)
Fixpoint sync_files (config : dict) (table_spec : table_spec)
  (stream : stream_entry) (files : list s3file) (records_streamed : Z)
  (state : dict) : dict * list event * result Z :=
  match files with
  | [] => (state, [], Ok records_streamed)
  | f :: files' =>
      let '(tr1, r1) := sync_table_file config (key f) table_spec stream
                          (last_modified f) in
      match r1 with
      | Err e => (state, tr1, Err e)
      | Ok n =>
          match commit (table_name table_spec) state f with
          | Err e => (state, tr1, Err e)
          | Ok state1 =>
              let '(state2, tr2, r2) :=
                sync_files config table_spec stream files'
                  (records_streamed + n) state1 in
              (state2, (tr1 ++ EvWriteState state1 :: tr2)%list, r2)
          end
      end
  end.

(** Lines 17-20: the watermark the listing starts from,
    [strptime_with_tz(get_bookmark(...) or config["start_date"])]. *)
Definition listing_since (config : dict) (table_spec : table_spec)
  (state : dict) : result datetime :=
  match get_bookmark state (table_name table_spec) "modified_since" with
  | Err e => Err e
  | Ok b =>
      let v := if truthy b then Ok b else getitem config "start_date" in
      match v with
      | Err e => Err e
      | Ok v => strptime_with_tz E v
      end
  end.

(** [sync_stream(config, state, table_spec, stream)]: the final state
    object, the trace, and the record count or the exception raised. *)
Definition sync_stream (config : dict) (state : dict) (table_spec : table_spec)
  (stream : stream_entry) : dict * list event * result Z :=
  match listing_since config table_spec state with
  | Err e => (state, [], Err e)
  | Ok modified_since =>
      match get_input_files_for_table E config table_spec modified_since with
      | Err e => (state, [], Err e)
      | Ok s3_files =>
          sync_files config table_spec stream (sort_by_lm s3_files) 0 state
      end
  end.

(** ** Views used to state properties of [sync_stream] *)

(** The events of [sync_table_file] for a descriptor. *)
Definition file_trace (config : dict) (table_spec : table_spec)
  (stream : stream_entry) (f : s3file) : list event :=
  fst (sync_table_file config (key f) table_spec stream (last_modified f)).

(** The states after committing each of [files] in turn, from [state]. *)
Fixpoint commits (table_name : string) (state : dict) (files : list s3file)
  : result (list dict) :=
  match files with
  | [] => Ok []
  | f :: files' =>
      match commit table_name state f with
      | Err e => Err e
      | Ok state1 =>
          match commits table_name state1 files' with
          | Err e => Err e
          | Ok states => Ok (state1 :: states)
          end
      end
  end.

(** The table's [modified_since] bookmark in [s] is the ISO-8601 form of
    [f]'s [last_modified]. *)
Definition watermark_of (t : string) (f : s3file) (s : dict) : Prop :=
  get_bookmark s t "modified_since" = Ok (PStr (isoformat E (last_modified f))).

(** A call of [importlib.import_module] in a trace. *)
Definition is_import (ev : event) : bool :=
  match ev with EvImportModule _ => true | _ => false end.

(** The rows [pre] followed by the rows of [it]. *)
Fixpoint rows_of (pre : list dict) (it : rows) : rows :=
  match pre with
  | [] => it
  | row :: pre' => RCons row (rows_of pre' it)
  end.

(** The events of processing [files] in order, each followed by the write
    of the state committed after it. *)
Fixpoint files_trace (config : dict) (table_spec : table_spec)
  (stream : stream_entry) (files : list s3file) (states : list dict)
  : list event :=
  match files, states with
  | f :: files', st :: states' =>
      (file_trace config table_spec stream f ++ EvWriteState st
         :: files_trace config table_spec stream files' states')%list
  | _, _ => []
  end.

End Sync.

(** The messages written in a trace, in order. *)
Definition messages (tr : list event) : list dict :=
  flat_map (fun ev => match ev with EvMessage m => [m] | _ => [] end) tr.

(** The states written in a trace, in order. *)
Definition state_writes (tr : list event) : list dict :=
  flat_map (fun ev => match ev with EvWriteState s => [s] | _ => [] end) tr.

(** The integer [sequence] of every message of a trace, in order. *)
Definition sequences (tr : list event) : list Z :=
  flat_map (fun m => match dict_get m "sequence" with
                     | Some (PInt z) => [z]
                     | _ => [] end) (messages tr).

(** A dict value (the values on which [.get] exists). *)
Definition is_dict (v : pyval) : bool :=
  match v with PDict _ => true | _ => false end.

(** ** A concrete environment, used to run the model on small inputs

    Two objects in the bucket; the listing keeps those modified strictly
    after [since]; every file has one data row, except [bad.csv] whose
    decoder raises after its first row. Dates are written as decimal
    integers. *)
Definition demo_objects : list s3file :=
  [S3File "b.csv" 1583020800000000 10;   (** 2020-03-01T00:00:00Z *)
   S3File "a.csv" 1580515200000000 10].  (** 2020-02-01T00:00:00Z *)

(** The same bucket where the newer file cannot be decoded past its first
    row. *)
Definition demo_bad_objects : list s3file :=
  [S3File "bad.csv" 1583020800000000 10;
   S3File "a.csv" 1580515200000000 10].

(** The state committed after [a.csv]. *)
Definition demo_state_after_a : dict :=
  [("bookmarks", PDict [("tbl", PDict [("modified_since", PStr "1580515200000000")])])].

Definition demo_rows (h : string) : rows :=
  if String.eqb h "bad.csv"
  then RCons [("id", PStr "1")] (RFault (ExternalError "decode"))
  else if String.eqb h "two.csv"
  then RCons [("id", PStr "1")] (RCons [("id", PStr "2")] RNil)
  else RCons [("id", PStr h)] RNil.

Definition demo_parse (v : pyval) : result datetime :=
  match v with
  | PStr s => match NilZero.int_of_string s with
              | Some i => Ok (Z.of_int i)
              | None => Err (ExternalError "strptime")
              end
  | _ => Err TypeError
  end.

Definition demo_env (objects : list s3file) : collaborators string string pyval := {|
  singer_encodings_csv := "singer_encodings.csv";
  import_module := fun v => match v with
                            | PStr s => if String.eqb s "custom_csv" then Imported s
                                        else ModuleNotFoundError
                            | _ => ImportRaised TypeError
                            end;
  get_row_iterator := fun _ h _ => Ok (demo_rows h);
  get_file_handle := fun _ path => Ok path;
  get_input_files_for_table := fun _ _ since =>
    Ok (filter (fun f => since <? last_modified f) objects);
  transform := fun r _ _ => Ok r;
  to_map := fun v => v;
  strptime_with_tz := demo_parse;
  isoformat := fun d => NilZero.string_of_int (Z.to_int d)
|}.

Definition demo_config (encoding : option string) : dict :=
  ([("bucket", PStr "my-bucket"); ("start_date", PStr "1577836800000000")] ++
   match encoding with Some m => [("encoding_module", PStr m)] | None => [] end)%list.

Definition demo_spec : table_spec := TableSpec "tbl" [].
Definition demo_stream : stream_entry := StreamEntry (PDict []) (PList []).

(** The message written for the row of [a.csv]. *)
Definition demo_message_a : dict :=
  [("type", PStr "RECORD"); ("stream", PStr "tbl");
   ("record", PDict [("id", PStr "a.csv"); ("_sdc_source_bucket", PStr "my-bucket");
                     ("_sdc_source_file", PStr "a.csv");
                     ("_sdc_source_lineno", PInt 2)]);
   ("sequence", PInt 1580515200)].

(** The sync of [demo_spec] from an empty state. *)
Definition demo_run (objects : list s3file) (encoding : option string)
  : dict * list event * result Z :=
  sync_stream (demo_env objects) (demo_config encoding) [] demo_spec demo_stream.

(** A configuration without [start_date], and one without [bucket]. *)
Definition demo_config_no_start : dict := [("bucket", PStr "my-bucket")].
Definition demo_config_no_bucket : dict := [("start_date", PStr "1577836800000000")].

(** A configuration whose [encoding_module] is not a module name. *)
Definition demo_config_bad_module : dict :=
  [("bucket", PStr "my-bucket"); ("encoding_module", PNone)].

(** A state whose bookmark for [tbl] is the empty string. *)
Definition demo_state_empty_bookmark : dict :=
  [("bookmarks", PDict [("tbl", PDict [("modified_since", PStr "")])])].

(** A state whose [bookmarks] entry is [None]. *)
Definition demo_state_none_bookmarks : dict := [("bookmarks", PNone)].

(** * Properties *)

(** ** The sort *)


Lemma insert_by_lm_perm (x : s3file) (l : list s3file) :
  Permutation (insert_by_lm x l) (x :: l).
Proof.
  induction l as [|y l IH]; simpl; [reflexivity|].
  destruct (last_modified x <=? last_modified y); [reflexivity|].
  rewrite IH. apply perm_swap.
Qed.

Lemma sort_by_lm_perm (l : list s3file) : Permutation (sort_by_lm l) l.
Proof.
  induction l as [|x l IH]; simpl; [reflexivity|].
  rewrite insert_by_lm_perm. now apply perm_skip.
Qed.

Lemma insert_by_lm_sorted (x : s3file) (l : list s3file) :
  Sorted lm_le l -> Sorted lm_le (insert_by_lm x l).
Proof.
  induction 1 as [|y l Hs IH Hhd]; simpl.
  - repeat constructor.
  - destruct (last_modified x <=? last_modified y) eqn:Hxy.
    + constructor; [constructor; auto|]. constructor. apply Z.leb_le in Hxy. exact Hxy.
    + apply Z.leb_gt in Hxy. constructor; [exact IH|].
      destruct l as [|z l]; simpl.
      * constructor. unfold lm_le. lia.
      * inversion Hhd; subst.
        destruct (last_modified x <=? last_modified z); constructor;
          unfold lm_le in *; lia.
Qed.

Lemma sort_by_lm_sorted (l : list s3file) : Sorted lm_le (sort_by_lm l).
Proof.
  induction l as [|x l IH]; simpl; [constructor|]. now apply insert_by_lm_sorted.
Qed.


Lemma insert_by_lm_filter (d : datetime) (x : s3file) (l : list s3file) :
  filter (same_lm d) (insert_by_lm x l) = filter (same_lm d) (x :: l).
Proof.
  induction l as [|y l IH]; simpl; [reflexivity|].
  destruct (last_modified x <=? last_modified y) eqn:Hxy; [reflexivity|].
  apply Z.leb_gt in Hxy. simpl. rewrite IH. simpl. unfold same_lm.
  destruct (last_modified y =? d) eqn:Hy, (last_modified x =? d) eqn:Hx;
    try reflexivity; apply Z.eqb_eq in Hy; apply Z.eqb_eq in Hx; lia.
Qed.

Lemma sort_by_lm_stable (d : datetime) (l : list s3file) :
  filter (same_lm d) (sort_by_lm l) = filter (same_lm d) l.
Proof.
  induction l as [|x l IH]; simpl; [reflexivity|].
  rewrite insert_by_lm_filter. simpl. now rewrite IH.
Qed.

(** ** Dicts *)

Lemma dict_get_set_eq (d : dict) (k : string) (v : pyval) :
  dict_get (dict_set d k v) k = Some v.
Proof.
  induction d as [|[k' v'] d IH]; simpl.
  - now rewrite String.eqb_refl.
  - destruct (String.eqb k k') eqn:Hk; simpl.
    + now rewrite Hk.
    + now rewrite Hk.
Qed.

Lemma dict_get_set_neq (d : dict) (k k0 : string) (v : pyval) :
  k0 <> k -> dict_get (dict_set d k v) k0 = dict_get d k0.
Proof.
  intros Hne. induction d as [|[k' v'] d IH]; simpl.
  - apply String.eqb_neq in Hne. now rewrite Hne.
  - destruct (String.eqb k k') eqn:Hk; simpl.
    + apply String.eqb_eq in Hk; subst k'. apply String.eqb_neq in Hne.
      now rewrite Hne.
    + now rewrite IH.
Qed.

Lemma last_default {A} (b : A) (l : list A) (d d' : A) :
  last (b :: l) d = last (b :: l) d'.
Proof.
  revert b. induction l as [|c l IH]; intros b; [reflexivity|].
  change (last (c :: l) d = last (c :: l) d'). apply IH.
Qed.

Lemma last_in {A} (a : A) (l : list A) (d : A) : In (last (a :: l) d) (a :: l).
Proof.
  revert a. induction l as [|b l IH]; intros a; [now left|].
  right. change (In (last (b :: l) d) (b :: l)). apply IH.
Qed.

Lemma last_cons {A} (a : A) (l : list A) (d : A) : last (a :: l) d = last l a.
Proof.
  destruct l as [|b l]; [reflexivity|].
  change (last (b :: l) d = last (b :: l) a). apply last_default.
Qed.

(** ** Bookmarks *)

Lemma write_bookmark_get (st st' : dict) (t k : string) (v : pyval) :
  write_bookmark st t k v = Ok st' -> get_bookmark st' t k = Ok v.
Proof.
  unfold write_bookmark.
  destruct (match ensure_sub st "bookmarks" with
            | None => Ok [] | Some (PDict d) => Ok d | Some _ => Err AttributeError
            end) as [bms|e]; [|discriminate].
  destruct (match ensure_sub bms t with
            | None => Ok [] | Some (PDict d) => Ok d | Some _ => Err TypeError
            end) as [tb|e]; [|discriminate].
  intros H. inversion H; subst.
  unfold get_bookmark, get_sub. rewrite !dict_get_set_eq. reflexivity.
Qed.

(** ** The per-table loop *)

Section Loop.
Context {module file_handle metadata_map : Type}.
Variable E : collaborators module file_handle metadata_map.
Variables (config : dict) (spec : table_spec) (stream : stream_entry).

Abbreviation stf f := (sync_table_file E config (key f) spec stream (last_modified f)).
Abbreviation ftrace := (file_trace E config spec stream).

(** A loop that returns normally has run every file to completion, and its
    trace is the files' traces, each followed by its state write. *)
Lemma sync_files_ok (files : list s3file) (acc : Z) (st st' : dict)
  (tr : list event) (n : Z) :
  sync_files E config spec stream files acc st = (st', tr, Ok n) ->
  (forall f, In f files -> exists k, stf f = (ftrace f, Ok k)) /\
  exists sts, commits E (table_name spec) st files = Ok sts /\
    tr = files_trace E config spec stream files sts /\ st' = last sts st.
Proof.
  revert acc st tr. induction files as [|f files IH]; intros acc st tr H; simpl in H.
  - inversion H; subst. split; [intros f []|]. exists []. auto.
  - destruct (stf f) as [tr1 [k|e]] eqn:Hf; [|discriminate].
    destruct (commit E (table_name spec) st f) as [st1|e] eqn:Hc; [|discriminate].
    destruct (sync_files E config spec stream files (acc + k) st1)
      as [[st2 tr2] r2] eqn:Hr.
    inversion H; subst.
    destruct (IH _ _ _ Hr) as [Hall [sts [Hcs [-> ->]]]].
    assert (Hft : ftrace f = tr1) by (unfold file_trace; now rewrite Hf).
    split.
    + intros g [<-|Hg]; [exists k; now rewrite Hft|]. now apply Hall.
    + exists (st1 :: sts). rewrite last_cons. cbn [commits files_trace].
      rewrite Hc, Hcs, Hft. auto.
Qed.

(** A loop that raises has completed and committed a prefix [pre] of the
    files, then raised either inside the next file [f] or while committing
    it; the state it leaves is the one committed after [pre]. *)
Lemma sync_files_err (files : list s3file) (acc : Z) (st st' : dict)
  (tr : list event) (e : exn) :
  sync_files E config spec stream files acc st = (st', tr, Err e) ->
  exists pre f post sts,
    files = (pre ++ f :: post)%list /\
    (forall g, In g pre -> exists k, stf g = (ftrace g, Ok k)) /\
    commits E (table_name spec) st pre = Ok sts /\
    tr = (files_trace E config spec stream pre sts ++ ftrace f)%list /\
    st' = last sts st /\
    (stf f = (ftrace f, Err e) \/
     exists k, stf f = (ftrace f, Ok k) /\
       commit E (table_name spec) (last sts st) f = Err e).
Proof.
  revert acc st tr. induction files as [|f files IH]; intros acc st tr H; simpl in H.
  - discriminate.
  - assert (Hft : ftrace f = fst (stf f)) by reflexivity.
    destruct (stf f) as [tr1 [k|e1]] eqn:Hf.
    + destruct (commit E (table_name spec) st f) as [st1|e1] eqn:Hc.
      * destruct (sync_files E config spec stream files (acc + k) st1)
          as [[st2 tr2] r2] eqn:Hr.
        inversion H; subst.
        destruct (IH _ _ _ Hr)
          as (pre & g & post & sts & -> & Hpre & Hcs & -> & -> & Hg).
        exists (f :: pre), g, post, (st1 :: sts).
        rewrite last_cons. cbn [commits files_trace app].
        rewrite Hc, Hcs. simpl in Hft. rewrite Hft, <- app_assoc.
        repeat split; auto.
        intros h [<-|Hh]; [exists k; now rewrite Hf, Hft|]. now apply Hpre.
      * inversion H; subst. exists [], f, files, [].
        simpl in Hft |- *. rewrite Hft. repeat split; auto.
        -- intros g [].
        -- right. exists k. auto.
    + inversion H; subst. exists [], f, files, [].
      simpl in Hft |- *. rewrite Hft. repeat split; auto.
      intros g [].
Qed.

(** A file that raises after the files before it completed and were
    committed: the loop raises the same exception, with the trace and the
    state of those commits. *)
Lemma sync_files_fault (pre post : list s3file) (f : s3file) (sts : list dict)
  (acc : Z) (st : dict) (e : exn) :
  (forall g, In g pre -> exists k, stf g = (ftrace g, Ok k)) ->
  commits E (table_name spec) st pre = Ok sts ->
  stf f = (ftrace f, Err e) ->
  sync_files E config spec stream (pre ++ f :: post) acc st
    = (last sts st, (files_trace E config spec stream pre sts ++ ftrace f)%list,
       Err e).
Proof.
  revert acc st sts. induction pre as [|g pre IH]; intros acc st sts Hpre Hcs Hf.
  - inversion Hcs; subst. simpl. now rewrite Hf.
  - simpl in Hcs.
    destruct (commit E (table_name spec) st g) as [st1|e1] eqn:Hc; [|discriminate].
    destruct (commits E (table_name spec) st1 pre) as [sts1|e1] eqn:Hcs1;
      [|discriminate].
    inversion Hcs; subst.
    destruct (Hpre g (or_introl eq_refl)) as [k Hg].
    cbn [app sync_files]. rewrite Hg, Hc.
    rewrite (IH (acc + k) st1 sts1); [|intros h Hh; apply Hpre; now right|exact Hcs1|exact Hf].
    rewrite last_cons. cbn [files_trace]. now rewrite <- app_assoc.
Qed.


End Loop.

(** ** Events of a computation *)


Lemma all_events_ret {A} (P : event -> Prop) (a : A) : all_events P (ret a).
Proof. constructor. Qed.

Lemma all_events_lift {A} (P : event -> Prop) (r : result A) :
  all_events P (lift r).
Proof. constructor. Qed.

Lemma all_events_raise {A} (P : event -> Prop) (e : exn) :
  all_events P (@raise A e).
Proof. constructor. Qed.

Lemma all_events_emit (P : event -> Prop) (ev : event) :
  P ev -> all_events P (emit ev).
Proof. intros H. now constructor. Qed.

Lemma all_events_bind {A B} (P : event -> Prop) (m : T A) (k : A -> T B) :
  all_events P m -> (forall a, snd m = Ok a -> all_events P (k a)) ->
  all_events P (bind m k).
Proof.
  unfold all_events, bind. destruct m as [tr [a|e]]; simpl; intros Hm Hk; [|exact Hm].
  specialize (Hk a eq_refl). destruct (k a) as [tr' r]. simpl in *.
  apply Forall_app; auto.
Qed.

Create HintDb events.
#[local] Hint Resolve all_events_ret all_events_lift all_events_raise
  all_events_emit all_events_bind : events.

Section FileEvents.
Context {module file_handle metadata_map : Type}.
Variable E : collaborators module file_handle metadata_map.

Lemma sync_rows_events (P : event -> Prop) (bucket : pyval) (s3_path : string)
  (tn : string) (stream : stream_entry) (lm : datetime) (it : rows) (rs : Z) :
  (forall rs row to_write,
     transform E (enrich row bucket s3_path rs) (schema stream)
       (to_map E (metadata stream)) = Ok to_write ->
     P (record_event tn to_write lm)) ->
  all_events P (sync_rows E bucket s3_path tn stream lm it rs).
Proof.
  intros HP. revert rs. induction it as [|row rest IH|e]; intros rs;
    cbn [sync_rows]; auto with events.
  apply all_events_bind; [auto with events|]. intros to_write Hw.
  apply all_events_bind; [apply all_events_emit; eapply HP; exact Hw|].
  intros; apply IH.
Qed.

Lemma sync_table_file_events (P : event -> Prop) (config : dict)
  (s3_path : string) (spec : table_spec) (stream : stream_entry)
  (lm : datetime) :
  (forall name, P (EvImportModule name)) ->
  (forall name, P (EvWarning name)) ->
  (forall bucket rs row to_write,
     transform E (enrich row bucket s3_path rs) (schema stream)
       (to_map E (metadata stream)) = Ok to_write ->
     P (record_event (table_name spec) to_write lm)) ->
  all_events P (sync_table_file E config s3_path spec stream lm).
Proof.
  intros HI HW HR. unfold sync_table_file.
  apply all_events_bind; [auto with events|]. intros bucket _.
  apply all_events_bind; [auto with events|]. intros h _.
  apply all_events_bind.
  - unfold resolve_encoding_module.
    destruct (dict_get config "encoding_module") as [name|]; [|auto with events].
    apply all_events_bind; [auto with events|]. intros _ _.
    destruct (import_module E name); auto with events.
  - intros m _. unfold sync_file_with.
    apply all_events_bind; [auto with events|]. intros it _.
    apply sync_rows_events. intros; eapply HR; eassumption.
Qed.

End FileEvents.


Lemma bind_assoc {A B C} (m : T A) (k : A -> T B) (k' : B -> T C) :
  bind (bind m k) k' = bind m (fun a => bind (k a) k').
Proof.
  unfold bind. destruct m as [tr [a|e]]; [|reflexivity].
  destruct (k a) as [tr1 [b|e]]; [|reflexivity].
  destruct (k' b) as [tr2 r2]. now rewrite app_assoc.
Qed.

(** The message written for a record: [type], [stream], [record], then
    [sequence] at the top level. *)
Lemma record_event_shape (tn : string) (to_write : dict) (lm : datetime) :
  record_event tn to_write lm
  = EvMessage [("type", PStr "RECORD"); ("stream", PStr tn);
               ("record", PDict to_write); ("sequence", PInt (timestamp_int lm))].
Proof. reflexivity. Qed.

Section Rows.
Context {module file_handle metadata_map : Type}.
Variable E : collaborators module file_handle metadata_map.

(** Pulling the rows [pre] first: the loop continues on the rest of the
    iterator with [records_synced] advanced by the number of rows of [pre]. *)
Lemma sync_rows_prefix (bucket : pyval) (s3_path tn : string)
  (stream : stream_entry) (lm : datetime) (pre : list dict) (it : rows) (rs : Z) :
  sync_rows E bucket s3_path tn stream lm (rows_of pre it) rs
  = bind (sync_rows E bucket s3_path tn stream lm (rows_of pre RNil) rs)
      (fun _ => sync_rows E bucket s3_path tn stream lm it
                  (rs + Z.of_nat (List.length pre))).
Proof.
  revert rs. induction pre as [|row pre IH]; intros rs.
  - cbn [rows_of sync_rows List.length]. unfold bind, ret. simpl.
    rewrite Z.add_0_r. now destruct (sync_rows _ _ _ _ _ _ it rs).
  - cbn [rows_of sync_rows List.length]. rewrite !bind_assoc.
    f_equal. apply FunctionalExtensionality.functional_extensionality. intros w.
    rewrite !bind_assoc. f_equal.
    apply FunctionalExtensionality.functional_extensionality. intros u.
    rewrite IH. f_equal.
    apply FunctionalExtensionality.functional_extensionality. intros v.
    f_equal. lia.
Qed.

End Rows.

Section Messages.
Context {module file_handle metadata_map : Type}.
Variable E : collaborators module file_handle metadata_map.

(** Every message written by [sync_table_file] for a file modified at [lm]
    is a RECORD of the table, with [sequence] [timestamp_int lm] at the top
    level next to the transformed record. *)
Lemma sync_table_file_messages (config : dict) (s3_path : string)
  (spec : table_spec) (stream : stream_entry) (lm : datetime) (m : dict) :
  In (EvMessage m) (fst (sync_table_file E config s3_path spec stream lm)) ->
  exists r, m = [("type", PStr "RECORD"); ("stream", PStr (table_name spec));
                 ("record", PDict r); ("sequence", PInt (timestamp_int lm))].
Proof.
  intros Hin.
  assert (Hall : all_events (fun ev => match ev with
      | EvMessage m => exists r,
          m = [("type", PStr "RECORD"); ("stream", PStr (table_name spec));
               ("record", PDict r); ("sequence", PInt (timestamp_int lm))]
      | _ => True end) (sync_table_file E config s3_path spec stream lm)).
  { apply sync_table_file_events; try (intros; exact I).
    intros bucket rs row to_write _. rewrite record_event_shape. eauto. }
  unfold all_events in Hall. rewrite Forall_forall in Hall. exact (Hall _ Hin).
Qed.

(** Every message of the per-table loop was written by the
    [sync_table_file] of one of its files. *)
Lemma sync_files_messages (config : dict) (spec : table_spec)
  (stream : stream_entry) (files : list s3file) (acc : Z) (st : dict) (m : dict) :
  In (EvMessage m) (snd (fst (sync_files E config spec stream files acc st))) ->
  exists f, In f files /\ In (EvMessage m) (file_trace E config spec stream f).
Proof.
  revert acc st. induction files as [|f files IH]; intros acc st Hin; simpl in Hin.
  - contradiction.
  - unfold file_trace at 1.
    destruct (sync_table_file E config (key f) spec stream (last_modified f))
      as [tr1 [k|e]] eqn:Hf; simpl in Hin.
    + destruct (commit E (table_name spec) st f) as [st1|e]; simpl in Hin.
      * destruct (sync_files E config spec stream files (acc + k) st1)
          as [[st2 tr2] r2] eqn:Hr. simpl in Hin.
        apply in_app_or in Hin. destruct Hin as [Hin|[Hin|Hin]].
        -- exists f. split; [now left|]. unfold file_trace. now rewrite Hf.
        -- discriminate.
        -- specialize (IH (acc + k) st1). rewrite Hr in IH.
           destruct (IH Hin) as (g & Hg & Hm). exists g. split; [now right|exact Hm].
      * exists f. split; [now left|]. unfold file_trace. now rewrite Hf.
    + exists f. split; [now left|]. unfold file_trace. now rewrite Hf.
Qed.

(** [sync_file_with] calls no [import_module]. *)
Lemma sync_file_with_no_import (m : module) (bucket : pyval) (h : file_handle)
  (s3_path : string) (spec : table_spec) (stream : stream_entry) (lm : datetime) :
  filter is_import (fst (sync_file_with E m bucket h s3_path spec stream lm)) = [].
Proof.
  assert (Hall : all_events (fun ev => is_import ev = false)
                   (sync_file_with E m bucket h s3_path spec stream lm)).
  { unfold sync_file_with. apply all_events_bind; [apply all_events_lift|].
    intros it _. apply sync_rows_events. intros; reflexivity. }
  unfold all_events in Hall. induction Hall as [|ev tr Hev _ IH]; [reflexivity|].
  simpl. now rewrite Hev.
Qed.

(** A file that completes, with an [encoding_module] in the configuration,
    looks the module up exactly once. *)
Lemma sync_table_file_imports (config : dict) (s3_path : string)
  (spec : table_spec) (stream : stream_entry) (lm : datetime) (name : pyval)
  (k : Z) :
  dict_get config "encoding_module" = Some name ->
  snd (sync_table_file E config s3_path spec stream lm) = Ok k ->
  filter is_import (fst (sync_table_file E config s3_path spec stream lm))
    = [EvImportModule name].
Proof.
  intros Hname. unfold sync_table_file, resolve_encoding_module.
  rewrite Hname. unfold bind at 1, lift at 1.
  destruct (getitem config "bucket") as [bucket|e]; [|discriminate].
  unfold bind at 1, lift at 1.
  destruct (get_file_handle E config s3_path) as [h|e]; [|discriminate].
  destruct (import_module E name) as [m| |e]; unfold bind, emit, ret, raise;
    simpl; try discriminate;
  pose proof (sync_file_with_no_import m bucket h s3_path spec stream lm) as Hn
    || pose proof (sync_file_with_no_import (singer_encodings_csv E) bucket h
                     s3_path spec stream lm) as Hn;
  destruct (sync_file_with _ _ _ _ _ _ _ _) as [trr rr]; simpl in *;
    intros _; now rewrite Hn.
Qed.

Lemma files_trace_imports (config : dict) (spec : table_spec)
  (stream : stream_entry) (name : pyval) (fs : list s3file) (sts : list dict) :
  (forall f, In f fs ->
     filter is_import (file_trace E config spec stream f) = [EvImportModule name]) ->
  List.length sts = List.length fs ->
  filter is_import (files_trace E config spec stream fs sts)
    = repeat (EvImportModule name) (List.length fs).
Proof.
  revert sts. induction fs as [|f fs IH]; intros sts Hf Hlen; [reflexivity|].
  destruct sts as [|st sts]; [discriminate|].
  cbn [files_trace]. rewrite filter_app. simpl.
  rewrite (Hf f (or_introl eq_refl)). simpl. f_equal.
  apply IH; [intros g Hg; apply Hf; now right|now inversion Hlen].
Qed.

End Messages.

Section Commits.
Context {module file_handle metadata_map : Type}.
Variable E : collaborators module file_handle metadata_map.


Lemma commits_watermarks (t : string) (st : dict) (fs : list s3file)
  (sts : list dict) :
  commits E t st fs = Ok sts -> Forall2 (watermark_of E t) fs sts.
Proof.
  revert st sts. induction fs as [|f fs IH]; intros st sts H; simpl in H.
  - inversion H; constructor.
  - destruct (commit E t st f) as [st1|e] eqn:Hc; [|discriminate].
    destruct (commits E t st1 fs) as [sts1|e] eqn:Hcs; [|discriminate].
    inversion H; subst. constructor.
    + exact (write_bookmark_get _ _ _ _ _ Hc).
    + exact (IH _ _ Hcs).
Qed.

Lemma Forall2_last {A B} (P : A -> B -> Prop) (l : list A) (l' : list B)
  (a : A) (b : B) :
  Forall2 P l l' -> l <> [] -> P (last l a) (last l' b).
Proof.
  induction 1 as [|x y l l' Hxy Hl IH]; [congruence|].
  intros _. destruct Hl as [|x' y' l l' Hxy' Hl'].
  - exact Hxy.
  - change (P (last (x' :: l) a) (last (y' :: l') b)). apply IH. discriminate.
Qed.

Lemma commits_length (t : string) (st : dict) (fs : list s3file) (sts : list dict) :
  commits E t st fs = Ok sts -> List.length sts = List.length fs.
Proof.
  revert st sts. induction fs as [|f fs IH]; intros st sts H; simpl in H.
  - now inversion H.
  - destruct (commit E t st f) as [st1|e]; [|discriminate].
    destruct (commits E t st1 fs) as [sts1|e] eqn:Hc; [|discriminate].
    inversion H; subst. simpl. now rewrite (IH _ _ Hc).
Qed.

End Commits.

(** ** Repeated bookmark writes *)

Lemma bind_ok_inv {A B} (m : T A) (k : A -> T B) (tr : list event) (b : B) :
  bind m k = (tr, Ok b) ->
  exists tr1 a tr2, m = (tr1, Ok a) /\ k a = (tr2, Ok b) /\ tr = (tr1 ++ tr2)%list.
Proof.
  unfold bind. destruct m as [tr1 [a|e]]; [|discriminate].
  destruct (k a) as [tr2 r] eqn:Hk. intros H; inversion H; subst. eauto 6.
Qed.

Lemma dict_set_set (d : dict) (k : string) (a b : pyval) :
  dict_set (dict_set d k a) k b = dict_set d k b.
Proof.
  induction d as [|[k' v'] d IH]; simpl.
  - now rewrite String.eqb_refl.
  - destruct (String.eqb k k') eqn:Hk; simpl; rewrite Hk; [reflexivity|].
    now rewrite IH.
Qed.

(** A successful [write_bookmark] assigns [val] at the path it ensured;
    the path does not depend on [val]. *)
Lemma write_bookmark_shape (st st1 : dict) (t k : string) (v : pyval) :
  write_bookmark st t k v = Ok st1 ->
  exists bms tb,
    st1 = dict_set st "bookmarks" (PDict (dict_set bms t (PDict (dict_set tb k v)))) /\
    forall v', write_bookmark st t k v'
      = Ok (dict_set st "bookmarks" (PDict (dict_set bms t (PDict (dict_set tb k v'))))).
Proof.
  unfold write_bookmark.
  destruct (match ensure_sub st "bookmarks" with
            | None => Ok [] | Some (PDict d) => Ok d | Some _ => Err AttributeError
            end) as [bms|e]; [|discriminate].
  destruct (match ensure_sub bms t with
            | None => Ok [] | Some (PDict d) => Ok d | Some _ => Err TypeError
            end) as [tb|e]; [|discriminate].
  intros H. inversion H; subst. exists bms, tb. split; reflexivity.
Qed.

(** Writing a bookmark over a state where the same bookmark was written is
    the same as writing it once over the original state. *)
Lemma write_bookmark_again (st st1 : dict) (t k : string) (v1 v2 : pyval) :
  write_bookmark st t k v1 = Ok st1 ->
  write_bookmark st1 t k v2 = write_bookmark st t k v2.
Proof.
  intros H. destruct (write_bookmark_shape _ _ _ _ _ H) as (bms & tb & -> & Hw).
  rewrite Hw. unfold write_bookmark, ensure_sub.
  rewrite !dict_get_set_eq. rewrite !dict_set_set. reflexivity.
Qed.

Section Writes.
Context {module file_handle metadata_map : Type}.
Variable E : collaborators module file_handle metadata_map.

(** Each state committed after a run of files is the caller's state with
    one write of the table's [modified_since] bookmark; the last one is
    written with the watermark of the last file. *)
Lemma commits_writes (t : string) (st : dict) (fs : list s3file) (sts : list dict) :
  commits E t st fs = Ok sts ->
  Forall (fun s => exists d,
            write_bookmark st t "modified_since" (PStr (isoformat E d)) = Ok s) sts /\
  (forall f pre, fs = (pre ++ [f])%list ->
     write_bookmark st t "modified_since" (PStr (isoformat E (last_modified f)))
       = Ok (last sts st)).
Proof.
  revert st sts. induction fs as [|f1 fs IH]; intros st sts H; simpl in H.
  - inversion H; subst. split; [constructor|].
    intros f [|p pre] Hp; discriminate Hp || (simpl in Hp; discriminate Hp).
  - destruct (commit E t st f1) as [st1|e] eqn:Hc; [|discriminate].
    destruct (commits E t st1 fs) as [sts1|e] eqn:Hcs; [|discriminate].
    inversion H; subst. unfold commit in Hc.
    destruct (IH _ _ Hcs) as [Hall Hlast]. split.
    + constructor; [exists (last_modified f1); exact Hc|].
      rewrite Forall_forall in Hall |- *. intros s Hs.
      destruct (Hall s Hs) as [d Hd]. exists d.
      rewrite <- (write_bookmark_again _ _ _ _ _ _ Hc). exact Hd.
    + intros f [|p pre] Hp; simpl in Hp; inversion Hp; subst.
      * simpl in Hcs. inversion Hcs; subst. exact Hc.
      * rewrite last_cons, <- (write_bookmark_again _ _ _ _ _ _ Hc).
        exact (Hlast f pre eq_refl).
Qed.

Lemma sync_table_file_no_write (config : dict) (path : string)
  (spec : table_spec) (stream : stream_entry) (lm : datetime) :
  state_writes (fst (sync_table_file E config path spec stream lm)) = [].
Proof.
  assert (Hall : all_events (fun ev => match ev with EvWriteState _ => False
                                                 | _ => True end)
                   (sync_table_file E config path spec stream lm)).
  { apply sync_table_file_events; intros; exact I. }
  unfold all_events in Hall. induction Hall as [|ev tr Hev _ IH]; [reflexivity|].
  destruct ev; [exact IH|contradiction|exact IH|exact IH].
Qed.

(** A file that completes has read the bucket and opened the file, then
    resolved the encoding module, then streamed its rows with that module. *)
Lemma sync_table_file_split (config : dict) (path : string) (spec : table_spec)
  (stream : stream_entry) (lm : datetime) (tr : list event) (k : Z) :
  sync_table_file E config path spec stream lm = (tr, Ok k) ->
  exists bucket h rtr m,
    getitem config "bucket" = Ok bucket /\
    get_file_handle E config path = Ok h /\
    resolve_encoding_module E config = (rtr, Ok m) /\
    tr = (rtr ++ fst (sync_file_with E m bucket h path spec stream lm))%list.
Proof.
  unfold sync_table_file. intros H.
  apply bind_ok_inv in H. destruct H as (tr1 & bucket & tr2 & Hb & H & ->).
  unfold lift in Hb. inversion Hb; subst.
  apply bind_ok_inv in H. destruct H as (tr1 & h & tr3 & Hh & H & ->).
  unfold lift in Hh. inversion Hh; subst.
  apply bind_ok_inv in H. destruct H as (rtr & m & tr4 & Hm & H & ->).
  exists bucket, h, rtr, m. repeat split; try assumption.
  rewrite H. reflexivity.
Qed.

End Writes.

(** ** Claims about [sync_stream] *)

Section Claims.
Context {module file_handle metadata_map : Type}.
Variable E : collaborators module file_handle metadata_map.

(** C1: the files of the listing are processed, and their messages
    emitted, in the order of [sort_by_lm]: non-decreasing [last_modified],
    a permutation of the listing, and stable (files with equal
    [last_modified] keep the listing's relative order). *)
Theorem C1_sorted_stable_processing (config state : dict) (spec : table_spec)
  (stream : stream_entry) (since : datetime) (files : list s3file) :
  listing_since E config spec state = Ok since ->
  get_input_files_for_table E config spec since = Ok files ->
  sync_stream E config state spec stream
    = sync_files E config spec stream (sort_by_lm files) 0 state /\
  Sorted lm_le (sort_by_lm files) /\
  Permutation (sort_by_lm files) files /\
  (forall d, filter (same_lm d) (sort_by_lm files) = filter (same_lm d) files) /\
  (forall state' tr n, sync_stream E config state spec stream = (state', tr, Ok n) ->
     exists sts, tr = files_trace E config spec stream (sort_by_lm files) sts).
Proof.
  intros Hs Hl.
  assert (Hrun : sync_stream E config state spec stream
                 = sync_files E config spec stream (sort_by_lm files) 0 state)
    by (unfold sync_stream; now rewrite Hs, Hl).
  split; [exact Hrun|].
  split; [apply sort_by_lm_sorted|].
  split; [apply sort_by_lm_perm|].
  split; [intros d; apply sort_by_lm_stable|].
  intros state' tr n H. rewrite Hrun in H.
  destruct (sync_files_ok E config spec stream _ _ _ _ _ _ H)
    as [_ [sts [_ [-> _]]]].
  now exists sts.
Qed.

(** C2: after each processed file the table's [modified_since] bookmark
    holds that file's [last_modified] in ISO-8601 (the state written after
    the file carries it); after a sync that returns, the bookmark is the
    [last_modified] of the last file processed (when there was one); and,
    when the listing returns only files newer than the watermark it was
    given, the watermark the next sync starts from is not smaller than
    this sync's (also when no file was found). *)
Theorem C2_watermark_progress (config state : dict) (spec : table_spec)
  (stream : stream_entry) (since : datetime) (files : list s3file)
  (state' : dict) (tr : list event) (n : Z) :
  listing_since E config spec state = Ok since ->
  get_input_files_for_table E config spec since = Ok files ->
  (forall f, In f files -> since < last_modified f) ->
  (forall f, In f files ->
     isoformat E (last_modified f) <> "" /\
     strptime_with_tz E (PStr (isoformat E (last_modified f)))
       = Ok (last_modified f)) ->
  sync_stream E config state spec stream = (state', tr, Ok n) ->
  (exists sts, tr = files_trace E config spec stream (sort_by_lm files) sts /\
     Forall2 (watermark_of E (table_name spec)) (sort_by_lm files) sts) /\
  (forall f0, files <> [] ->
     watermark_of E (table_name spec) (last (sort_by_lm files) f0) state') /\
  (exists since', listing_since E config spec state' = Ok since' /\
     since <= since').
Proof.
  intros Hs Hl Hnew Hiso Hrun.
  unfold sync_stream in Hrun. rewrite Hs, Hl in Hrun.
  destruct (sync_files_ok E config spec stream _ _ _ _ _ _ Hrun)
    as [_ [sts [Hcs [Htr Hst]]]].
  pose proof (commits_watermarks E _ _ _ _ Hcs) as Hw.
  split; [exists sts; split; assumption|].
  assert (Hperm := sort_by_lm_perm files).
  destruct (sort_by_lm files) as [|f1 sfs] eqn:Hsort.
  - (* no file: nothing committed *)
    inversion Hw; subst. split.
    + intros f0 Hne. apply Permutation_nil in Hperm. contradiction.
    + exists since. split; [exact Hs|lia].
  - assert (Hne : sts <> []) by (inversion Hw; discriminate).
    assert (Hlast : watermark_of E (table_name spec) (last (f1 :: sfs) f1)
                      (last sts state))
      by (apply Forall2_last; [exact Hw|discriminate]).
    split.
    + intros f0 _. subst state'. rewrite (last_default f1 sfs f0 f1). exact Hlast.
    + set (fl := last (f1 :: sfs) f1) in *.
      assert (Hin : In fl files).
      { apply (Permutation_in _ Hperm). apply last_in. }
      destruct (Hiso fl Hin) as [Hnonempty Hround].
      exists (last_modified fl). subst state'.
      unfold listing_since. unfold watermark_of in Hlast. rewrite Hlast.
      simpl. apply String.eqb_neq in Hnonempty. rewrite Hnonempty. simpl.
      split; [exact Hround|]. specialize (Hnew fl Hin). lia.
Qed.

(** C3: when a file raises while it is streamed (on opening, decoding or
    transforming, possibly after some of its records were emitted), and the
    files sorted before it completed, the sync raises the same exception:
    its trace is the earlier files' events and state writes followed by the
    failing file's events, which contain no state write, and the state it
    leaves is the one committed after the last completed file, whose
    watermarks are those of the completed files. *)
Theorem C3_fault_keeps_committed (config state : dict) (spec : table_spec)
  (stream : stream_entry) (since : datetime) (files pre post : list s3file)
  (f : s3file) (sts : list dict) (e : exn) :
  listing_since E config spec state = Ok since ->
  get_input_files_for_table E config spec since = Ok files ->
  sort_by_lm files = (pre ++ f :: post)%list ->
  (forall g, In g pre -> exists k,
     sync_table_file E config (key g) spec stream (last_modified g)
       = (file_trace E config spec stream g, Ok k)) ->
  commits E (table_name spec) state pre = Ok sts ->
  snd (sync_table_file E config (key f) spec stream (last_modified f)) = Err e ->
  sync_stream E config state spec stream
    = (last sts state,
       (files_trace E config spec stream pre sts ++ file_trace E config spec stream f)%list,
       Err e) /\
  (forall s, ~ In (EvWriteState s) (file_trace E config spec stream f)) /\
  Forall2 (watermark_of E (table_name spec)) pre sts.
Proof.
  intros Hs Hl Hsort Hpre Hcs Hf.
  split; [|split].
  - unfold sync_stream. rewrite Hs, Hl, Hsort.
    apply sync_files_fault; try assumption.
    unfold file_trace. destruct (sync_table_file _ _ _ _ _ _) as [trf rf].
    simpl in *. now subst.
  - intros s Hin.
    assert (Hall : all_events (fun ev => match ev with EvWriteState _ => False
                                                    | _ => True end)
                     (sync_table_file E config (key f) spec stream (last_modified f)))
      by (apply sync_table_file_events; intros; exact I).
    unfold all_events, file_trace in *. rewrite Forall_forall in Hall.
    exact (Hall _ Hin).
  - exact (commits_watermarks E _ _ _ _ Hcs).
Qed.

(** C4: every record message written for a file carries the sequence
    [int(last_modified.timestamp())] of that file, whatever the row (so all
    records of one file share it), and every record message of a table sync
    was written for one of the listed files. *)
Theorem C4_sequence_of_file (config state : dict) (spec : table_spec)
  (stream : stream_entry) (since : datetime) (files : list s3file) :
  listing_since E config spec state = Ok since ->
  get_input_files_for_table E config spec since = Ok files ->
  (forall f m, In (EvMessage m) (file_trace E config spec stream f) ->
     dict_get m "sequence" = Some (PInt (timestamp_int (last_modified f)))) /\
  (forall m, In (EvMessage m) (snd (fst (sync_stream E config state spec stream))) ->
     exists f, In f files /\ In (EvMessage m) (file_trace E config spec stream f)).
Proof.
  intros Hs Hl. split.
  - intros f m Hin. unfold file_trace in Hin.
    destruct (sync_table_file_messages E _ _ _ _ _ _ Hin) as [r ->]. reflexivity.
  - intros m Hin. unfold sync_stream in Hin. rewrite Hs, Hl in Hin.
    destruct (sync_files_messages E _ _ _ _ _ _ _ Hin) as (f & Hf & Hm).
    exists f. split; [|exact Hm].
    apply (Permutation_in _ (sort_by_lm_perm files)). exact Hf.
Qed.

(** C5: when the iterator yields the rows [pre] and then [row], the
    [N]-th row with [N = length pre + 1], the loop reaches [row] with
    [records_synced = N - 1], merges it with line number [N + 1], and goes on
    with [records_synced = N]. *)
Theorem C5_line_numbers (m : module) (bucket : pyval) (h : file_handle)
  (s3_path : string) (spec : table_spec) (stream : stream_entry)
  (lm : datetime) (pre : list dict) (row : dict) (rest : rows) :
  get_row_iterator E m h spec = Ok (rows_of pre (RCons row rest)) ->
  sync_file_with E m bucket h s3_path spec stream lm
  = bind (sync_rows E bucket s3_path (table_name spec) stream lm (rows_of pre RNil) 0)
      (fun _ =>
         to_write <- lift (transform E
                             (enrich row bucket s3_path (Z.of_nat (List.length pre)))
                             (schema stream) (to_map E (metadata stream))) ;;
         emit (record_event (table_name spec) to_write lm) ;;;
         sync_rows E bucket s3_path (table_name spec) stream lm rest
           (Z.of_nat (S (List.length pre)))) /\
  dict_get (enrich row bucket s3_path (Z.of_nat (List.length pre)))
    SDC_SOURCE_LINENO_COLUMN = Some (PInt (Z.of_nat (S (List.length pre)) + 1)).
Proof.
  intros Hit. split.
  - unfold sync_file_with. rewrite Hit. unfold bind at 1, lift.
    rewrite sync_rows_prefix. rewrite Z.add_0_l.
    cbn [sync_rows]. rewrite Nat2Z.inj_succ, <- Z.add_1_r.
    destruct (bind _ _) as [tr r]. reflexivity.
  - unfold enrich, dict_merge, custom_columns. cbn [fold_left].
    rewrite dict_get_set_eq. f_equal. f_equal. lia.
Qed.

(** C6: merging a row with the reserved columns never fails, gives the
    reserved columns their values whatever the row held under those names,
    and keeps the row's other fields. *)
Theorem C6_reserved_fields_win (row : dict) (bucket : pyval) (s3_path : string)
  (records_synced : Z) :
  dict_get (enrich row bucket s3_path records_synced) SDC_SOURCE_BUCKET_COLUMN
    = Some bucket /\
  dict_get (enrich row bucket s3_path records_synced) SDC_SOURCE_FILE_COLUMN
    = Some (PStr s3_path) /\
  dict_get (enrich row bucket s3_path records_synced) SDC_SOURCE_LINENO_COLUMN
    = Some (PInt (records_synced + 2)) /\
  (forall k, k <> SDC_SOURCE_BUCKET_COLUMN -> k <> SDC_SOURCE_FILE_COLUMN ->
     k <> SDC_SOURCE_LINENO_COLUMN ->
     dict_get (enrich row bucket s3_path records_synced) k = dict_get row k).
Proof.
  unfold enrich, dict_merge, custom_columns. cbn [fold_left].
  split; [|split; [|split]].
  - rewrite !dict_get_set_neq by discriminate. apply dict_get_set_eq.
  - rewrite dict_get_set_neq by discriminate. apply dict_get_set_eq.
  - apply dict_get_set_eq.
  - intros k Hb Hf Hl. rewrite !dict_get_set_neq by assumption. reflexivity.
Qed.

(** C8 (amended): every message written by a table sync serialises as
    [{type: "RECORD", stream: table_name, record: {fields...},
    sequence: int}]: [sequence] is a top-level key next to [record], not a
    field of the record, and it is the [timestamp_int] of a listed file. *)
Theorem C8_message_shape (config state : dict) (spec : table_spec)
  (stream : stream_entry) (since : datetime) (files : list s3file) :
  listing_since E config spec state = Ok since ->
  get_input_files_for_table E config spec since = Ok files ->
  forall m, In (EvMessage m) (snd (fst (sync_stream E config state spec stream))) ->
  exists f r, In f files /\
    m = [("type", PStr "RECORD"); ("stream", PStr (table_name spec));
         ("record", PDict r); ("sequence", PInt (timestamp_int (last_modified f)))].
Proof.
  intros Hs Hl m Hin. unfold sync_stream in Hin. rewrite Hs, Hl in Hin.
  destruct (sync_files_messages E _ _ _ _ _ _ _ Hin) as (f & Hf & Hm).
  unfold file_trace in Hm.
  destruct (sync_table_file_messages E _ _ _ _ _ _ Hm) as [r ->].
  exists f, r. split; [|reflexivity].
  apply (Permutation_in _ (sort_by_lm_perm files)). exact Hf.
Qed.

(** C7: when the configuration names an [encoding_module] whose import
    raises [ModuleNotFoundError], resolution logs a warning and returns the
    default module without raising, and the file is synced exactly as with
    the default module, after the lookup and the warning. *)
Theorem C7_missing_module_falls_back (config : dict) (s3_path : string)
  (spec : table_spec) (stream : stream_entry) (lm : datetime) (name : pyval)
  (bucket : pyval) (h : file_handle) :
  dict_get config "encoding_module" = Some name ->
  import_module E name = ModuleNotFoundError ->
  getitem config "bucket" = Ok bucket ->
  get_file_handle E config s3_path = Ok h ->
  resolve_encoding_module E config
    = ([EvImportModule name; EvWarning name], Ok (singer_encodings_csv E)) /\
  sync_table_file E config s3_path spec stream lm
    = (EvImportModule name :: EvWarning name
         :: fst (sync_file_with E (singer_encodings_csv E) bucket h s3_path spec
                   stream lm),
       snd (sync_file_with E (singer_encodings_csv E) bucket h s3_path spec
              stream lm)).
Proof.
  intros Hname Hnf Hb Hh.
  assert (Hres : resolve_encoding_module E config
    = ([EvImportModule name; EvWarning name], Ok (singer_encodings_csv E)))
    by (unfold resolve_encoding_module; rewrite Hname, Hnf; reflexivity).
  split; [exact Hres|].
  unfold sync_table_file. rewrite Hb, Hh, Hres. unfold bind, lift. simpl.
  now destruct (sync_file_with _ _ _ _ _ _ _ _).
Qed.

(** C9 (amended): the encoding module is looked up inside
    [sync_table_file], once per file: a table sync that completes, with an
    [encoding_module] in the configuration, calls [import_module] once for
    each listed file (not once for the table). For each file the lookup is
    the first event of the file's processing: its rows are then read and
    streamed by [sync_file_with] with the module just resolved, which looks
    nothing up again. *)
Theorem C9_lookup_per_file (config state : dict) (spec : table_spec)
  (stream : stream_entry) (since : datetime) (files : list s3file)
  (name : pyval) (state' : dict) (tr : list event) (n : Z) :
  listing_since E config spec state = Ok since ->
  get_input_files_for_table E config spec since = Ok files ->
  dict_get config "encoding_module" = Some name ->
  sync_stream E config state spec stream = (state', tr, Ok n) ->
  filter is_import tr = repeat (EvImportModule name) (List.length files) /\
  (forall f, In f files ->
     filter is_import (file_trace E config spec stream f) = [EvImportModule name] /\
     exists bucket h warn m,
       getitem config "bucket" = Ok bucket /\
       get_file_handle E config (key f) = Ok h /\
       (warn = [] \/ warn = [EvWarning name]) /\
       resolve_encoding_module E config = ((EvImportModule name :: warn)%list, Ok m) /\
       file_trace E config spec stream f
         = (EvImportModule name :: warn
              ++ fst (sync_file_with E m bucket h (key f) spec stream
                        (last_modified f)))%list /\
       filter is_import
         (fst (sync_file_with E m bucket h (key f) spec stream (last_modified f)))
         = []).
Proof.
  intros Hs Hl Hname Hrun.
  unfold sync_stream in Hrun. rewrite Hs, Hl in Hrun.
  destruct (sync_files_ok E config spec stream _ _ _ _ _ _ Hrun)
    as [Hall [sts [Hcs [Htr _]]]].
  assert (Hok : forall f, In f files -> exists k,
    sync_table_file E config (key f) spec stream (last_modified f)
      = (file_trace E config spec stream f, Ok k)).
  { intros f Hin.
    exact (Hall f (Permutation_in _ (Permutation_sym (sort_by_lm_perm files)) Hin)). }
  assert (Hf : forall f, In f files ->
    filter is_import (file_trace E config spec stream f) = [EvImportModule name]).
  { intros f Hin. destruct (Hok f Hin) as [k Hk].
    unfold file_trace.
    apply (sync_table_file_imports E _ _ _ _ _ _ k Hname). now rewrite Hk. }
  split.
  - subst tr. rewrite (Permutation_length (Permutation_sym (sort_by_lm_perm files))).
    apply files_trace_imports.
    + intros f Hin. apply Hf. exact (Permutation_in _ (sort_by_lm_perm files) Hin).
    + exact (commits_length E _ _ _ _ Hcs).
  - intros f Hin. split; [exact (Hf f Hin)|].
    destruct (Hok f Hin) as [k Hk].
    destruct (sync_table_file_split E _ _ _ _ _ _ _ Hk)
      as (bucket & h & rtr & m & Hb & Hh & Hm & Htf).
    assert (Hrtr : exists warn, (warn = [] \/ warn = [EvWarning name]) /\
                     rtr = EvImportModule name :: warn).
    { revert Hm. unfold resolve_encoding_module. rewrite Hname.
      destruct (import_module E name) as [m0| |e]; simpl; intros Hm;
        inversion Hm; subst; eauto. }
    destruct Hrtr as (warn & Hw & ->).
    exists bucket, h, warn, m.
    split; [exact Hb|]. split; [exact Hh|]. split; [exact Hw|].
    split; [exact Hm|]. split; [exact Htf|].
    apply sync_file_with_no_import.
Qed.

(** C10: whatever its outcome, a run of [sync_stream] has completed a run
    [done_] of files, and its trace is their traces, each followed by the
    write of the state committed after it, then events that write no
    state. Each state written is the caller's state with exactly one write
    of the table's [modified_since] bookmark; the state left is the
    caller's state when no file completed, and otherwise the caller's state
    with [modified_since] set to the watermark of the last completed file.
    When the listing is empty it writes nothing, emits nothing, leaves the
    state as it was and returns [0]. *)
Theorem C10_empty_listing_and_frame :
  (forall config state spec stream state' tr r,
     sync_stream E config state spec stream = (state', tr, r) ->
     exists done_ sts extra,
       (forall g, In g done_ -> exists k,
          sync_table_file E config (key g) spec stream (last_modified g)
            = (file_trace E config spec stream g, Ok k)) /\
       List.length sts = List.length done_ /\
       tr = (files_trace E config spec stream done_ sts ++ extra)%list /\
       state_writes extra = [] /\
       Forall (fun s => exists d,
                 write_bookmark state (table_name spec) "modified_since"
                   (PStr (isoformat E d)) = Ok s) sts /\
       ((done_ = [] /\ state' = state) \/
        (exists pre f, done_ = (pre ++ [f])%list /\
           write_bookmark state (table_name spec) "modified_since"
             (PStr (isoformat E (last_modified f))) = Ok state'))) /\
  (forall config state spec stream since,
     listing_since E config spec state = Ok since ->
     get_input_files_for_table E config spec since = Ok [] ->
     sync_stream E config state spec stream = (state, [], Ok 0)).
Proof.
  split.
  - intros config state spec stream state' tr r H.
    assert (Hdone : forall done_ sts,
      commits E (table_name spec) state done_ = Ok sts -> state' = last sts state ->
      Forall (fun s => exists d,
                write_bookmark state (table_name spec) "modified_since"
                  (PStr (isoformat E d)) = Ok s) sts /\
      ((done_ = [] /\ state' = state) \/
       (exists pre f, done_ = (pre ++ [f])%list /\
          write_bookmark state (table_name spec) "modified_since"
            (PStr (isoformat E (last_modified f))) = Ok state'))).
    { intros done_ sts Hcs ->. destruct (commits_writes E _ _ _ _ Hcs) as [Hw Hl].
      split; [exact Hw|].
      induction done_ as [|g gs _] using rev_ind.
      - left. simpl in Hcs. inversion Hcs; subst. split; reflexivity.
      - right. exists gs, g. split; [reflexivity|]. exact (Hl g gs eq_refl). }
    unfold sync_stream in H.
    destruct (listing_since E config spec state) as [since|e].
    2:{ inversion H; subst. exists [], [], [].
        repeat split; [intros g []|constructor|]. left; split; reflexivity. }
    destruct (get_input_files_for_table E config spec since) as [files|e].
    2:{ inversion H; subst. exists [], [], [].
        repeat split; [intros g []|constructor|]. left; split; reflexivity. }
    destruct r as [n|e].
    + destruct (sync_files_ok E config spec stream _ _ _ _ _ _ H)
        as [Hall [sts [Hcs [-> Hst]]]].
      exists (sort_by_lm files), sts, [].
      split; [exact Hall|]. split; [exact (commits_length E _ _ _ _ Hcs)|].
      split; [now rewrite app_nil_r|]. split; [reflexivity|].
      exact (Hdone _ _ Hcs Hst).
    + destruct (sync_files_err E config spec stream _ _ _ _ _ _ H)
        as (pre & f & post & sts & _ & Hpre & Hcs & -> & Hst & _).
      exists pre, sts, (file_trace E config spec stream f).
      split; [exact Hpre|]. split; [exact (commits_length E _ _ _ _ Hcs)|].
      split; [reflexivity|]. split; [apply sync_table_file_no_write|].
      exact (Hdone _ _ Hcs Hst).
  - intros config state spec stream since Hs Hl.
    unfold sync_stream. now rewrite Hs, Hl.
Qed.

End Claims.

Lemma C1_witness :
  listing_since (demo_env demo_objects) (demo_config None) demo_spec []
    = Ok 1577836800000000 /\
  get_input_files_for_table (demo_env demo_objects) (demo_config None) demo_spec
    1577836800000000 = Ok demo_objects /\
  (sync_stream (demo_env demo_objects) (demo_config None) [] demo_spec demo_stream
    = sync_files (demo_env demo_objects) (demo_config None) demo_spec demo_stream
        (sort_by_lm demo_objects) 0 [] /\
  Sorted lm_le (sort_by_lm demo_objects) /\
  Permutation (sort_by_lm demo_objects) demo_objects /\
  (forall d, filter (same_lm d) (sort_by_lm demo_objects)
             = filter (same_lm d) demo_objects) /\
  (forall state' tr n, sync_stream (demo_env demo_objects) (demo_config None) []
      demo_spec demo_stream = (state', tr, Ok n) ->
     exists sts, tr = files_trace (demo_env demo_objects) (demo_config None)
       demo_spec demo_stream (sort_by_lm demo_objects) sts)).
Proof.
  split; [vm_compute; reflexivity|].
  split; [vm_compute; reflexivity|].
  apply (C1_sorted_stable_processing (demo_env demo_objects) (demo_config None) []
           demo_spec demo_stream 1577836800000000 demo_objects);
    vm_compute; reflexivity.
Defined.

Lemma C2_witness :
  listing_since (demo_env demo_objects) (demo_config None) demo_spec []
    = Ok 1577836800000000 /\
  get_input_files_for_table (demo_env demo_objects) (demo_config None) demo_spec
    1577836800000000 = Ok demo_objects /\
  (forall f, In f demo_objects -> 1577836800000000 < last_modified f) /\
  (forall f, In f demo_objects ->
     isoformat (demo_env demo_objects) (last_modified f) <> "" /\
     strptime_with_tz (demo_env demo_objects)
       (PStr (isoformat (demo_env demo_objects) (last_modified f)))
       = Ok (last_modified f)) /\
  demo_run demo_objects None
    = (fst (fst (demo_run demo_objects None)), snd (fst (demo_run demo_objects None)),
       Ok 2) /\
  ((exists sts, snd (fst (demo_run demo_objects None))
        = files_trace (demo_env demo_objects) (demo_config None) demo_spec
            demo_stream (sort_by_lm demo_objects) sts /\
      Forall2 (watermark_of (demo_env demo_objects) (table_name demo_spec))
        (sort_by_lm demo_objects) sts) /\
   (forall f0, demo_objects <> [] ->
      watermark_of (demo_env demo_objects) (table_name demo_spec)
        (last (sort_by_lm demo_objects) f0) (fst (fst (demo_run demo_objects None)))) /\
   (exists since', listing_since (demo_env demo_objects) (demo_config None) demo_spec
        (fst (fst (demo_run demo_objects None))) = Ok since' /\
      1577836800000000 <= since')).
Proof.
  assert (H1 : listing_since (demo_env demo_objects) (demo_config None) demo_spec []
                 = Ok 1577836800000000) by (vm_compute; reflexivity).
  assert (H2 : get_input_files_for_table (demo_env demo_objects) (demo_config None)
                 demo_spec 1577836800000000 = Ok demo_objects)
    by (vm_compute; reflexivity).
  assert (H3 : forall f, In f demo_objects -> 1577836800000000 < last_modified f)
    by (intros f [<-|[<-|[]]]; vm_compute; reflexivity).
  assert (H4 : forall f, In f demo_objects ->
     isoformat (demo_env demo_objects) (last_modified f) <> "" /\
     strptime_with_tz (demo_env demo_objects)
       (PStr (isoformat (demo_env demo_objects) (last_modified f)))
       = Ok (last_modified f))
    by (intros f [<-|[<-|[]]]; split; vm_compute; try discriminate; reflexivity).
  assert (H5 : demo_run demo_objects None
    = (fst (fst (demo_run demo_objects None)), snd (fst (demo_run demo_objects None)),
       Ok 2)) by (vm_compute; reflexivity).
  repeat (split; [assumption|]).
  exact (C2_watermark_progress (demo_env demo_objects) (demo_config None) []
           demo_spec demo_stream 1577836800000000 demo_objects _ _ 2
           H1 H2 H3 H4 H5).
Defined.

Lemma C3_witness :
  listing_since (demo_env demo_bad_objects) (demo_config None) demo_spec []
    = Ok 1577836800000000 /\
  get_input_files_for_table (demo_env demo_bad_objects) (demo_config None) demo_spec
    1577836800000000 = Ok demo_bad_objects /\
  sort_by_lm demo_bad_objects
    = ([S3File "a.csv" 1580515200000000 10] ++ S3File "bad.csv" 1583020800000000 10 :: [])%list /\
  (forall g, In g [S3File "a.csv" 1580515200000000 10] -> exists k,
     sync_table_file (demo_env demo_bad_objects) (demo_config None) (key g) demo_spec
       demo_stream (last_modified g)
     = (file_trace (demo_env demo_bad_objects) (demo_config None) demo_spec demo_stream g,
        Ok k)) /\
  commits (demo_env demo_bad_objects) (table_name demo_spec) []
    [S3File "a.csv" 1580515200000000 10] = Ok [demo_state_after_a] /\
  snd (sync_table_file (demo_env demo_bad_objects) (demo_config None) "bad.csv"
         demo_spec demo_stream 1583020800000000) = Err (ExternalError "decode") /\
  (sync_stream (demo_env demo_bad_objects) (demo_config None) [] demo_spec demo_stream
     = (last [demo_state_after_a] [],
        (files_trace (demo_env demo_bad_objects) (demo_config None) demo_spec demo_stream
           [S3File "a.csv" 1580515200000000 10] [demo_state_after_a] ++
         file_trace (demo_env demo_bad_objects) (demo_config None) demo_spec demo_stream
           (S3File "bad.csv" 1583020800000000 10))%list,
        Err (ExternalError "decode")) /\
   (forall s, ~ In (EvWriteState s)
      (file_trace (demo_env demo_bad_objects) (demo_config None) demo_spec demo_stream
         (S3File "bad.csv" 1583020800000000 10))) /\
   Forall2 (watermark_of (demo_env demo_bad_objects) (table_name demo_spec))
     [S3File "a.csv" 1580515200000000 10] [demo_state_after_a]).
Proof.
  assert (H1 : listing_since (demo_env demo_bad_objects) (demo_config None) demo_spec []
                 = Ok 1577836800000000) by (vm_compute; reflexivity).
  assert (H2 : get_input_files_for_table (demo_env demo_bad_objects) (demo_config None)
                 demo_spec 1577836800000000 = Ok demo_bad_objects)
    by (vm_compute; reflexivity).
  assert (H3 : sort_by_lm demo_bad_objects
    = ([S3File "a.csv" 1580515200000000 10] ++
       S3File "bad.csv" 1583020800000000 10 :: [])%list) by (vm_compute; reflexivity).
  assert (H4 : forall g, In g [S3File "a.csv" 1580515200000000 10] -> exists k,
     sync_table_file (demo_env demo_bad_objects) (demo_config None) (key g) demo_spec
       demo_stream (last_modified g)
     = (file_trace (demo_env demo_bad_objects) (demo_config None) demo_spec demo_stream g,
        Ok k)) by (intros g [<-|[]]; exists 1; vm_compute; reflexivity).
  assert (H5 : commits (demo_env demo_bad_objects) (table_name demo_spec) []
    [S3File "a.csv" 1580515200000000 10] = Ok [demo_state_after_a])
    by (vm_compute; reflexivity).
  assert (H6 : snd (sync_table_file (demo_env demo_bad_objects) (demo_config None)
    "bad.csv" demo_spec demo_stream 1583020800000000) = Err (ExternalError "decode"))
    by (vm_compute; reflexivity).
  repeat (split; [assumption|]).
  exact (C3_fault_keeps_committed (demo_env demo_bad_objects) (demo_config None) []
           demo_spec demo_stream 1577836800000000 demo_bad_objects
           [S3File "a.csv" 1580515200000000 10] []
           (S3File "bad.csv" 1583020800000000 10) [demo_state_after_a]
           (ExternalError "decode") H1 H2 H3 H4 H5 H6).
Defined.

Lemma C4_witness :
  listing_since (demo_env demo_objects) (demo_config None) demo_spec []
    = Ok 1577836800000000 /\
  get_input_files_for_table (demo_env demo_objects) (demo_config None) demo_spec
    1577836800000000 = Ok demo_objects /\
  (forall f m, In (EvMessage m)
       (file_trace (demo_env demo_objects) (demo_config None) demo_spec demo_stream f) ->
     dict_get m "sequence" = Some (PInt (timestamp_int (last_modified f)))) /\
  (forall m, In (EvMessage m) (snd (fst (demo_run demo_objects None))) ->
     exists f, In f demo_objects /\
       In (EvMessage m)
         (file_trace (demo_env demo_objects) (demo_config None) demo_spec demo_stream f)).
Proof.
  assert (H1 : listing_since (demo_env demo_objects) (demo_config None) demo_spec []
                 = Ok 1577836800000000) by (vm_compute; reflexivity).
  assert (H2 : get_input_files_for_table (demo_env demo_objects) (demo_config None)
                 demo_spec 1577836800000000 = Ok demo_objects)
    by (vm_compute; reflexivity).
  split; [exact H1|]. split; [exact H2|].
  exact (C4_sequence_of_file (demo_env demo_objects) (demo_config None) []
           demo_spec demo_stream 1577836800000000 demo_objects H1 H2).
Defined.

Lemma C5_witness :
  get_row_iterator (demo_env demo_objects) "singer_encodings.csv" "two.csv" demo_spec
    = Ok (rows_of [[("id", PStr "1")]] (RCons [("id", PStr "2")] RNil)) /\
  sync_file_with (demo_env demo_objects) "singer_encodings.csv" (PStr "my-bucket")
    "two.csv" "two.csv" demo_spec demo_stream 1580515200000000
  = bind (sync_rows (demo_env demo_objects) (PStr "my-bucket") "two.csv"
            (table_name demo_spec) demo_stream 1580515200000000
            (rows_of [[("id", PStr "1")]] RNil) 0)
      (fun _ =>
         to_write <- lift (transform (demo_env demo_objects)
                             (enrich [("id", PStr "2")] (PStr "my-bucket") "two.csv"
                                (Z.of_nat (List.length [[("id", PStr "1")]])))
                             (schema demo_stream)
                             (to_map (demo_env demo_objects) (metadata demo_stream))) ;;
         emit (record_event (table_name demo_spec) to_write 1580515200000000) ;;;
         sync_rows (demo_env demo_objects) (PStr "my-bucket") "two.csv"
           (table_name demo_spec) demo_stream 1580515200000000 RNil
           (Z.of_nat (S (List.length [[("id", PStr "1")]])))) /\
  dict_get (enrich [("id", PStr "2")] (PStr "my-bucket") "two.csv"
              (Z.of_nat (List.length [[("id", PStr "1")]])))
    SDC_SOURCE_LINENO_COLUMN
  = Some (PInt (Z.of_nat (S (List.length [[("id", PStr "1")]])) + 1)).
Proof.
  assert (H : get_row_iterator (demo_env demo_objects) "singer_encodings.csv" "two.csv"
                demo_spec = Ok (rows_of [[("id", PStr "1")]] (RCons [("id", PStr "2")] RNil)))
    by (vm_compute; reflexivity).
  split; [exact H|].
  exact (C5_line_numbers (demo_env demo_objects) "singer_encodings.csv" (PStr "my-bucket")
           "two.csv" "two.csv" demo_spec demo_stream 1580515200000000
           [[("id", PStr "1")]] [("id", PStr "2")] RNil H).
Defined.

Lemma C7_witness :
  dict_get (demo_config (Some "nope")) "encoding_module" = Some (PStr "nope") /\
  import_module (demo_env demo_objects) (PStr "nope") = ModuleNotFoundError /\
  getitem (demo_config (Some "nope")) "bucket" = Ok (PStr "my-bucket") /\
  get_file_handle (demo_env demo_objects) (demo_config (Some "nope")) "a.csv" = Ok "a.csv" /\
  (resolve_encoding_module (demo_env demo_objects) (demo_config (Some "nope"))
     = ([EvImportModule (PStr "nope"); EvWarning (PStr "nope")],
        Ok (singer_encodings_csv (demo_env demo_objects))) /\
   sync_table_file (demo_env demo_objects) (demo_config (Some "nope")) "a.csv" demo_spec
     demo_stream 1580515200000000
   = (EvImportModule (PStr "nope") :: EvWarning (PStr "nope")
        :: fst (sync_file_with (demo_env demo_objects)
                  (singer_encodings_csv (demo_env demo_objects)) (PStr "my-bucket")
                  "a.csv" "a.csv" demo_spec demo_stream 1580515200000000),
      snd (sync_file_with (demo_env demo_objects)
             (singer_encodings_csv (demo_env demo_objects)) (PStr "my-bucket")
             "a.csv" "a.csv" demo_spec demo_stream 1580515200000000))).
Proof.
  assert (H1 : dict_get (demo_config (Some "nope")) "encoding_module" = Some (PStr "nope"))
    by reflexivity.
  assert (H2 : import_module (demo_env demo_objects) (PStr "nope") = ModuleNotFoundError)
    by reflexivity.
  assert (H3 : getitem (demo_config (Some "nope")) "bucket" = Ok (PStr "my-bucket"))
    by reflexivity.
  assert (H4 : get_file_handle (demo_env demo_objects) (demo_config (Some "nope")) "a.csv"
                 = Ok "a.csv") by reflexivity.
  repeat (split; [assumption|]).
  exact (C7_missing_module_falls_back (demo_env demo_objects) (demo_config (Some "nope"))
           "a.csv" demo_spec demo_stream 1580515200000000 (PStr "nope") (PStr "my-bucket")
           "a.csv" H1 H2 H3 H4).
Defined.

Lemma C8_witness :
  listing_since (demo_env demo_objects) (demo_config None) demo_spec []
    = Ok 1577836800000000 /\
  get_input_files_for_table (demo_env demo_objects) (demo_config None) demo_spec
    1577836800000000 = Ok demo_objects /\
  In (EvMessage demo_message_a) (snd (fst (demo_run demo_objects None))) /\
  exists f r, In f demo_objects /\
    demo_message_a = [("type", PStr "RECORD"); ("stream", PStr (table_name demo_spec));
         ("record", PDict r); ("sequence", PInt (timestamp_int (last_modified f)))].
Proof.
  assert (H1 : listing_since (demo_env demo_objects) (demo_config None) demo_spec []
                 = Ok 1577836800000000) by (vm_compute; reflexivity).
  assert (H2 : get_input_files_for_table (demo_env demo_objects) (demo_config None)
                 demo_spec 1577836800000000 = Ok demo_objects)
    by (vm_compute; reflexivity).
  assert (H3 : In (EvMessage demo_message_a) (snd (fst (demo_run demo_objects None))))
    by (vm_compute; left; reflexivity).
  repeat (split; [assumption|]).
  exact (C8_message_shape (demo_env demo_objects) (demo_config None) [] demo_spec
           demo_stream 1577836800000000 demo_objects H1 H2 demo_message_a H3).
Defined.

(** C8 fails as stated: the message written for [a.csv] has [sequence] at
    the top level and its [record] has no [sequence] field. *)
Lemma C8_counterexample :
  ~ (forall m, In (EvMessage m) (snd (fst (demo_run demo_objects None))) ->
       exists r sq, dict_get m "record" = Some (PDict r) /\
                    dict_get r "sequence" = Some (PInt sq)).
Proof.
  intros H.
  assert (Hin : In (EvMessage demo_message_a) (snd (fst (demo_run demo_objects None))))
    by (vm_compute; left; reflexivity).
  destruct (H _ Hin) as (r & sq & Hr & Hs).
  vm_compute in Hr. inversion Hr; subst. vm_compute in Hs. discriminate Hs.
Qed.

Lemma C9_witness :
  listing_since (demo_env demo_objects) (demo_config (Some "custom_csv")) demo_spec []
    = Ok 1577836800000000 /\
  get_input_files_for_table (demo_env demo_objects) (demo_config (Some "custom_csv"))
    demo_spec 1577836800000000 = Ok demo_objects /\
  dict_get (demo_config (Some "custom_csv")) "encoding_module" = Some (PStr "custom_csv") /\
  demo_run demo_objects (Some "custom_csv")
    = (fst (fst (demo_run demo_objects (Some "custom_csv"))),
       snd (fst (demo_run demo_objects (Some "custom_csv"))), Ok 2) /\
  (filter is_import (snd (fst (demo_run demo_objects (Some "custom_csv"))))
     = repeat (EvImportModule (PStr "custom_csv")) (List.length demo_objects) /\
   (forall f, In f demo_objects ->
      filter is_import (file_trace (demo_env demo_objects) (demo_config (Some "custom_csv"))
                          demo_spec demo_stream f)
      = [EvImportModule (PStr "custom_csv")] /\
      exists bucket h warn m,
        getitem (demo_config (Some "custom_csv")) "bucket" = Ok bucket /\
        get_file_handle (demo_env demo_objects) (demo_config (Some "custom_csv")) (key f)
          = Ok h /\
        (warn = [] \/ warn = [EvWarning (PStr "custom_csv")]) /\
        resolve_encoding_module (demo_env demo_objects) (demo_config (Some "custom_csv"))
          = ((EvImportModule (PStr "custom_csv") :: warn)%list, Ok m) /\
        file_trace (demo_env demo_objects) (demo_config (Some "custom_csv"))
          demo_spec demo_stream f
        = (EvImportModule (PStr "custom_csv") :: warn
             ++ fst (sync_file_with (demo_env demo_objects) m bucket h (key f)
                       demo_spec demo_stream (last_modified f)))%list /\
        filter is_import
          (fst (sync_file_with (demo_env demo_objects) m bucket h (key f)
                  demo_spec demo_stream (last_modified f))) = [])).
Proof.
  assert (H1 : listing_since (demo_env demo_objects) (demo_config (Some "custom_csv"))
                 demo_spec [] = Ok 1577836800000000) by (vm_compute; reflexivity).
  assert (H2 : get_input_files_for_table (demo_env demo_objects)
                 (demo_config (Some "custom_csv")) demo_spec 1577836800000000
               = Ok demo_objects) by (vm_compute; reflexivity).
  assert (H3 : dict_get (demo_config (Some "custom_csv")) "encoding_module"
                 = Some (PStr "custom_csv")) by reflexivity.
  assert (H4 : demo_run demo_objects (Some "custom_csv")
    = (fst (fst (demo_run demo_objects (Some "custom_csv"))),
       snd (fst (demo_run demo_objects (Some "custom_csv"))), Ok 2))
    by (vm_compute; reflexivity).
  repeat (split; [assumption|]).
  exact (C9_lookup_per_file (demo_env demo_objects) (demo_config (Some "custom_csv")) []
           demo_spec demo_stream 1577836800000000 demo_objects (PStr "custom_csv")
           _ _ 2 H1 H2 H3 H4).
Defined.

(** C9 fails as stated: one table sync over two files looks the encoding
    module up twice. *)
Lemma C9_counterexample :
  List.length (filter is_import (snd (fst (demo_run demo_objects (Some "custom_csv")))))
    = 2%nat.
Proof. vm_compute. reflexivity. Qed.

Lemma C10_witness :
  listing_since (demo_env []) (demo_config None) demo_spec [] = Ok 1577836800000000 /\
  get_input_files_for_table (demo_env []) (demo_config None) demo_spec 1577836800000000
    = Ok [] /\
  demo_run [] None = ([], [], Ok 0) /\
  demo_run demo_bad_objects None
    = (fst (fst (demo_run demo_bad_objects None)),
       snd (fst (demo_run demo_bad_objects None)),
       Err (ExternalError "decode")) /\
  (exists done_ sts extra,
     (forall g, In g done_ -> exists k,
        sync_table_file (demo_env demo_bad_objects) (demo_config None) (key g)
          demo_spec demo_stream (last_modified g)
        = (file_trace (demo_env demo_bad_objects) (demo_config None) demo_spec
             demo_stream g, Ok k)) /\
     List.length sts = List.length done_ /\
     snd (fst (demo_run demo_bad_objects None))
       = (files_trace (demo_env demo_bad_objects) (demo_config None) demo_spec
            demo_stream done_ sts ++ extra)%list /\
     state_writes extra = [] /\
     Forall (fun s => exists d,
               write_bookmark [] (table_name demo_spec) "modified_since"
                 (PStr (isoformat (demo_env demo_bad_objects) d)) = Ok s) sts /\
     ((done_ = [] /\ fst (fst (demo_run demo_bad_objects None)) = []) \/
      (exists pre f, done_ = (pre ++ [f])%list /\
         write_bookmark [] (table_name demo_spec) "modified_since"
           (PStr (isoformat (demo_env demo_bad_objects) (last_modified f)))
         = Ok (fst (fst (demo_run demo_bad_objects None)))))).
Proof.
  assert (H1 : listing_since (demo_env []) (demo_config None) demo_spec []
                 = Ok 1577836800000000) by (vm_compute; reflexivity).
  assert (H2 : get_input_files_for_table (demo_env []) (demo_config None) demo_spec
                 1577836800000000 = Ok []) by reflexivity.
  assert (H3 : demo_run demo_bad_objects None
    = (fst (fst (demo_run demo_bad_objects None)),
       snd (fst (demo_run demo_bad_objects None)),
       Err (ExternalError "decode"))) by (vm_compute; reflexivity).
  split; [exact H1|]. split; [exact H2|].
  split; [exact (proj2 (C10_empty_listing_and_frame (demo_env [])) (demo_config None) []
                   demo_spec demo_stream 1577836800000000 H1 H2)|].
  split; [exact H3|].
  exact (proj1 (C10_empty_listing_and_frame (demo_env demo_bad_objects))
           (demo_config None) [] demo_spec demo_stream _ _ _ H3).
Defined.

(** * Further properties of the module *)

(** ** Views of traces *)

Lemma messages_app (a b : list event) :
  messages (a ++ b) = (messages a ++ messages b)%list.
Proof. apply flat_map_app. Qed.

Lemma state_writes_app (a b : list event) :
  state_writes (a ++ b) = (state_writes a ++ state_writes b)%list.
Proof. apply flat_map_app. Qed.

Lemma sequences_app (a b : list event) :
  sequences (a ++ b) = (sequences a ++ sequences b)%list.
Proof. unfold sequences. rewrite messages_app. apply flat_map_app. Qed.

Lemma messages_record_events (tn : string) (lm : datetime) (ws : list dict) :
  messages (map (fun w => record_event tn w lm) ws)
  = map (fun w => rms_asdict (RecordMessageWithSequence
                                (RecordMessage tn w None None) lm)) ws.
Proof. induction ws as [|w ws IH]; simpl; [reflexivity|]. now rewrite IH. Qed.

Section FileRuns.
Context {module file_handle metadata_map : Type}.
Variable E : collaborators module file_handle metadata_map.

(** A row loop that returns has read a finite iterator [pre] to its end,
    and written one message per row, in the order of the rows. *)
Lemma sync_rows_ok (bucket : pyval) (path tn : string) (stream : stream_entry)
  (lm : datetime) (it : rows) (rs : Z) (tr : list event) (n : Z) :
  sync_rows E bucket path tn stream lm it rs = (tr, Ok n) ->
  exists pre ws, it = rows_of pre RNil /\ n = rs + Z.of_nat (List.length pre) /\
    tr = map (fun w => record_event tn w lm) ws /\
    List.length ws = List.length pre /\
    (forall i row w, nth_error pre i = Some row -> nth_error ws i = Some w ->
       transform E (enrich row bucket path (rs + Z.of_nat i)) (schema stream)
         (to_map E (metadata stream)) = Ok w).
Proof.
  revert rs tr n. induction it as [|row rest IH|e]; intros rs tr n H;
    cbn [sync_rows] in H.
  - inversion H; subst. exists [], []. repeat split; simpl; auto; [lia|].
    intros [|i]; discriminate.
  - apply bind_ok_inv in H. destruct H as (tr1 & w & tr2 & Hw & H2 & ->).
    unfold lift in Hw. inversion Hw; subst.
    apply bind_ok_inv in H2. destruct H2 as (tr3 & u & tr4 & He & Hr & ->).
    unfold emit in He. inversion He; subst.
    destruct (IH _ _ _ Hr) as (pre & ws & -> & -> & -> & Hlen & Hall).
    exists (row :: pre), (w :: ws). simpl. repeat split; auto; [lia|].
    intros [|i] r0 w0 Hp Hq; simpl in Hp, Hq.
    + inversion Hp; inversion Hq; subst. rewrite Z.add_0_r. congruence.
    + rewrite <- (Hall i r0 w0 Hp Hq). f_equal. f_equal. lia.
  - discriminate.
Qed.

Lemma resolve_no_message (config : dict) :
  messages (fst (resolve_encoding_module E config)) = [].
Proof.
  unfold resolve_encoding_module.
  destruct (dict_get config "encoding_module") as [name|]; [|reflexivity].
  destruct (import_module E name); reflexivity.
Qed.

(** A file that completes: its rows are those of a finite iterator, one
    message per row in row order, the [i]-th row merged with line number
    [i + 2], and the count returned is the number of rows. *)
Lemma sync_table_file_ok_inv (config : dict) (path : string) (spec : table_spec)
  (stream : stream_entry) (lm : datetime) (tr : list event) (k : Z) :
  sync_table_file E config path spec stream lm = (tr, Ok k) ->
  exists bucket h m pre ws,
    getitem config "bucket" = Ok bucket /\
    get_file_handle E config path = Ok h /\
    snd (resolve_encoding_module E config) = Ok m /\
    get_row_iterator E m h spec = Ok (rows_of pre RNil) /\
    k = Z.of_nat (List.length pre) /\
    messages tr
      = map (fun w => rms_asdict (RecordMessageWithSequence
                          (RecordMessage (table_name spec) w None None) lm)) ws /\
    List.length ws = List.length pre /\
    (forall i row w, nth_error pre i = Some row -> nth_error ws i = Some w ->
       transform E (enrich row bucket path (Z.of_nat i)) (schema stream)
         (to_map E (metadata stream)) = Ok w).
Proof.
  unfold sync_table_file. intros H.
  apply bind_ok_inv in H. destruct H as (tr1 & bucket & tr2 & Hb & H & ->).
  unfold lift in Hb. inversion Hb; subst.
  apply bind_ok_inv in H. destruct H as (tr1 & h & tr3 & Hh & H & ->).
  unfold lift in Hh. inversion Hh; subst.
  apply bind_ok_inv in H. destruct H as (tr1 & m & tr4 & Hm & H & ->).
  unfold sync_file_with in H.
  apply bind_ok_inv in H. destruct H as (tr5 & it & tr6 & Hi & H & ->).
  unfold lift in Hi. inversion Hi; subst.
  destruct (sync_rows_ok _ _ _ _ _ _ _ _ _ H)
    as (pre & ws & -> & -> & -> & Hlen & Hall).
  exists bucket, h, m, pre, ws.
  split; [assumption|]. split; [assumption|]. split; [now rewrite Hm|].
  split; [assumption|]. split; [reflexivity|]. split; [|split; [exact Hlen|]].
  - simpl. rewrite messages_app.
    pose proof (resolve_no_message config) as Hn. rewrite Hm in Hn. simpl in Hn.
    rewrite Hn. apply messages_record_events.
  - intros i row w Hp Hq. rewrite <- (Hall i row w Hp Hq). reflexivity.
Qed.

Lemma sync_table_file_count (config : dict) (path : string) (spec : table_spec)
  (stream : stream_entry) (lm : datetime) (tr : list event) (k : Z) :
  sync_table_file E config path spec stream lm = (tr, Ok k) ->
  k = Z.of_nat (List.length (messages tr)).
Proof.
  intros H.
  destruct (sync_table_file_ok_inv _ _ _ _ _ _ _ H)
    as (bucket & h & m & pre & ws & _ & _ & _ & _ & -> & Hms & Hlen & _).
  rewrite Hms, length_map, Hlen. reflexivity.
Qed.

End FileRuns.

(** ** Sorted lists *)

Lemma StronglySorted_app {A} (R : A -> A -> Prop) (l1 l2 : list A) :
  StronglySorted R l1 -> StronglySorted R l2 ->
  (forall x y, In x l1 -> In y l2 -> R x y) ->
  StronglySorted R (l1 ++ l2).
Proof.
  induction 1 as [|a l1 Hs IH Hhd]; intros H2 Hx; simpl; [exact H2|].
  constructor.
  - apply IH; [exact H2|]. intros x y Hx1 Hy. apply Hx; [now right|exact Hy].
  - apply Forall_app. split; [exact Hhd|].
    apply Forall_forall. intros y Hy. apply Hx; [now left|exact Hy].
Qed.

Lemma StronglySorted_app_inv {A} (R : A -> A -> Prop) (l1 l2 : list A) :
  StronglySorted R (l1 ++ l2) ->
  StronglySorted R l1 /\ StronglySorted R l2 /\
  (forall x y, In x l1 -> In y l2 -> R x y).
Proof.
  induction l1 as [|a l1 IH]; simpl; intros H.
  - split; [constructor|]. split; [exact H|]. intros x y [].
  - inversion H as [|a' l' Hs Hhd]; subst.
    destruct (IH Hs) as (H1 & H2 & H3). apply Forall_app in Hhd.
    destruct Hhd as [Hhd1 Hhd2].
    split; [constructor; assumption|]. split; [exact H2|].
    intros x y [<-|Hx] Hy.
    + rewrite Forall_forall in Hhd2. now apply Hhd2.
    + now apply H3.
Qed.

Lemma lm_le_trans : Relations_1.Transitive lm_le.
Proof. intros x y z. unfold lm_le. lia. Qed.

(** [sorted] returns a list already in [last_modified] order as it is. *)
Lemma sort_by_lm_sorted_id (l : list s3file) :
  Sorted lm_le l -> sort_by_lm l = l.
Proof.
  induction l as [|x l IH]; intros H; [reflexivity|].
  inversion H as [|x' l' Hs Hhd]; subst. simpl. rewrite (IH Hs).
  destruct l as [|y l]; [reflexivity|]. inversion Hhd; subst. simpl.
  unfold lm_le in *. destruct (last_modified x <=? last_modified y) eqn:Hxy;
    [reflexivity|]. apply Z.leb_gt in Hxy. lia.
Qed.

(** ** Outcomes of a table sync *)

Section Outcomes.
Context {module file_handle metadata_map : Type}.
Variable E : collaborators module file_handle metadata_map.

Lemma state_writes_files_trace (config : dict) (spec : table_spec)
  (stream : stream_entry) (fs : list s3file) (sts : list dict) :
  List.length sts = List.length fs ->
  state_writes (files_trace E config spec stream fs sts) = sts.
Proof.
  revert sts. induction fs as [|f fs IH]; intros [|st sts] Hlen;
    try discriminate; [reflexivity|].
  cbn [files_trace]. rewrite state_writes_app. unfold file_trace.
  rewrite sync_table_file_no_write. simpl. f_equal. apply IH. now inversion Hlen.
Qed.

Lemma state_writes_file_traces (config : dict) (spec : table_spec)
  (stream : stream_entry) (fs : list s3file) :
  state_writes (flat_map (file_trace E config spec stream) fs) = [].
Proof.
  induction fs as [|f fs IH]; [reflexivity|]. simpl.
  rewrite state_writes_app. unfold file_trace at 1.
  rewrite sync_table_file_no_write. exact IH.
Qed.

(** Whatever its outcome, a table sync has committed the files [done_]
    and then run the files [rest] (none, or the one that raised), all in
    [last_modified] order; its trace is theirs, and the state left is the
    one committed last. *)
Lemma sync_stream_outcome (config state : dict) (spec : table_spec)
  (stream : stream_entry) (st' : dict) (tr : list event) (r : result Z) :
  sync_stream E config state spec stream = (st', tr, r) ->
  exists done_ rest sts,
    StronglySorted lm_le (done_ ++ rest) /\
    commits E (table_name spec) state done_ = Ok sts /\
    tr = (files_trace E config spec stream done_ sts
          ++ flat_map (file_trace E config spec stream) rest)%list /\
    st' = last sts state.
Proof.
  unfold sync_stream. intros H.
  destruct (listing_since E config spec state) as [since|e].
  2:{ inversion H; subst. exists [], [], []. repeat split; constructor. }
  destruct (get_input_files_for_table E config spec since) as [files|e].
  2:{ inversion H; subst. exists [], [], []. repeat split; constructor. }
  assert (Hss : StronglySorted lm_le (sort_by_lm files))
    by (apply Sorted_StronglySorted; [exact lm_le_trans|apply sort_by_lm_sorted]).
  destruct r as [n|e].
  - destruct (sync_files_ok E config spec stream _ _ _ _ _ _ H)
      as [_ [sts [Hcs [-> ->]]]].
    exists (sort_by_lm files), [], sts. simpl. rewrite !app_nil_r. auto.
  - destruct (sync_files_err E config spec stream _ _ _ _ _ _ H)
      as (pre & f & post & sts & Hsplit & _ & Hcs & -> & -> & _).
    exists pre, [f], sts. rewrite Hsplit in Hss.
    replace (pre ++ f :: post)%list with ((pre ++ [f]) ++ post)%list in Hss
      by now rewrite <- app_assoc.
    apply StronglySorted_app_inv in Hss. destruct Hss as [Hss _].
    simpl. rewrite app_nil_r. auto.
Qed.

End Outcomes.

Lemma in_messages (m : dict) (tr : list event) :
  In m (messages tr) -> In (EvMessage m) tr.
Proof.
  unfold messages. rewrite in_flat_map. intros (ev & Hev & Hm).
  destruct ev; simpl in Hm; try contradiction.
  destruct Hm as [<-|[]]. exact Hev.
Qed.

Lemma sequences_write (st : dict) (tr : list event) :
  sequences (EvWriteState st :: tr) = sequences tr.
Proof. reflexivity. Qed.

Lemma sorted_flat_map (g : s3file -> list Z) (L : list s3file) :
  StronglySorted lm_le L ->
  (forall f, Forall (eq (timestamp_int (last_modified f))) (g f)) ->
  StronglySorted Z.le (flat_map g L).
Proof.
  intros HL Hg. induction HL as [|f L Hs IH Hhd]; simpl; [constructor|].
  apply StronglySorted_app; [|exact IH|].
  - specialize (Hg f). induction Hg as [|x l Hx Hl IHl]; constructor; [exact IHl|].
    apply Forall_forall. intros y Hy. rewrite Forall_forall in Hl.
    rewrite <- Hx, <- (Hl y Hy). lia.
  - intros x y Hx Hy. apply in_flat_map in Hy. destruct Hy as (f' & Hf' & Hy).
    pose proof (Hg f) as Gf. pose proof (Hg f') as Gf'.
    rewrite Forall_forall in Gf, Gf'.
    rewrite <- (Gf x Hx), <- (Gf' y Hy).
    rewrite Forall_forall in Hhd. unfold timestamp_int.
    apply Z.quot_le_mono; [lia|exact (Hhd f' Hf')].
Qed.

Section Runs.
Context {module file_handle metadata_map : Type}.
Variable E : collaborators module file_handle metadata_map.

Lemma sync_table_file_sequences (config : dict) (path : string)
  (spec : table_spec) (stream : stream_entry) (lm : datetime) :
  Forall (eq (timestamp_int lm))
    (sequences (fst (sync_table_file E config path spec stream lm))).
Proof.
  apply Forall_forall. intros z Hz. unfold sequences in Hz.
  apply in_flat_map in Hz. destruct Hz as (m & Hm & Hz).
  apply in_messages in Hm.
  destruct (sync_table_file_messages E _ _ _ _ _ _ Hm) as [r ->].
  simpl in Hz. destruct Hz as [<-|[]]. reflexivity.
Qed.

Lemma sequences_files_trace (config : dict) (spec : table_spec)
  (stream : stream_entry) (fs : list s3file) (sts : list dict) :
  List.length sts = List.length fs ->
  sequences (files_trace E config spec stream fs sts)
  = flat_map (fun f => sequences (file_trace E config spec stream f)) fs.
Proof.
  revert sts. induction fs as [|f fs IH]; intros [|st sts] Hlen;
    try discriminate; [reflexivity|].
  cbn [files_trace flat_map]. rewrite sequences_app, sequences_write.
  f_equal. apply IH. now inversion Hlen.
Qed.

Lemma sequences_file_traces (config : dict) (spec : table_spec)
  (stream : stream_entry) (fs : list s3file) :
  sequences (flat_map (file_trace E config spec stream) fs)
  = flat_map (fun f => sequences (file_trace E config spec stream f)) fs.
Proof.
  induction fs as [|f fs IH]; [reflexivity|]. simpl.
  rewrite sequences_app. now f_equal.
Qed.


Lemma sync_files_count (config : dict) (spec : table_spec) (stream : stream_entry)
  (files : list s3file) (acc : Z) (st st' : dict) (tr : list event) (n : Z) :
  sync_files E config spec stream files acc st = (st', tr, Ok n) ->
  n = acc + Z.of_nat (List.length (messages tr)) /\
  List.length (state_writes tr) = List.length files.
Proof.
  revert acc st tr. induction files as [|f files IH]; intros acc st tr H;
    simpl in H.
  - inversion H; subst. simpl. split; [lia|reflexivity].
  - destruct (sync_table_file E config (key f) spec stream (last_modified f))
      as [tr1 [k|e]] eqn:Hf; [|discriminate].
    destruct (commit E (table_name spec) st f) as [st1|e]; [|discriminate].
    destruct (sync_files E config spec stream files (acc + k) st1)
      as [[st2 tr2] r2] eqn:Hr.
    inversion H; subst.
    destruct (IH _ _ _ Hr) as [Hn Hw].
    pose proof (sync_table_file_count E _ _ _ _ _ _ _ Hf) as Hk.
    pose proof (sync_table_file_no_write E config (key f) spec stream
                  (last_modified f)) as Hnw. rewrite Hf in Hnw. simpl in Hnw.
    rewrite messages_app, state_writes_app, Hnw. simpl.
    rewrite length_app, Nat2Z.inj_add. split; [lia|now rewrite Hw].
Qed.

End Runs.

(** ** Line breaks in [__str__] and [__repr__] *)

Lemma line_free_app (a b : string) :
  line_free (a ++ b) = line_free a && line_free b.
Proof.
  induction a as [|c a IH]; simpl; [reflexivity|]. rewrite IH.
  now rewrite !andb_assoc.
Qed.

Lemma line_free_concat (sep : string) (l : list string) :
  line_free sep = true -> Forall (fun s => line_free s = true) l ->
  line_free (String.concat sep l) = true.
Proof.
  intros Hsep Hl. induction Hl as [|x l Hx Hl IH]; [reflexivity|].
  destruct l as [|y l]; [exact Hx|].
  change (line_free (x ++ sep ++ String.concat sep (y :: l)) = true).
  rewrite !line_free_app, Hx, Hsep, IH. reflexivity.
Qed.

Lemma repr_char_line_free (c : ascii) :
  line_free (repr_char squote c) = true /\ line_free (repr_char dquote c) = true.
Proof.
  destruct c as [[] [] [] [] [] [] [] []]; split; vm_compute; reflexivity.
Qed.

Lemma repr_body_line_free (q : ascii) (s : string) :
  q = squote \/ q = dquote -> line_free (repr_body q s) = true.
Proof.
  intros Hq. induction s as [|c s IH]; [reflexivity|]. simpl.
  rewrite line_free_app, IH, andb_true_r.
  destruct Hq as [->| ->]; apply repr_char_line_free.
Qed.

Lemma repr_str_line_free (s : string) : line_free (repr_str s) = true.
Proof.
  unfold repr_str.
  destruct (has_char squote s && negb (has_char dquote s));
    simpl; rewrite line_free_app, repr_body_line_free by auto; reflexivity.
Qed.

Lemma str_uint_line_free (d : Decimal.uint) :
  line_free (NilEmpty.string_of_uint d) = true.
Proof. induction d; simpl; auto. Qed.

Lemma str_int_line_free (z : Z) : line_free (str_int z) = true.
Proof.
  unfold str_int, NilZero.string_of_int, NilZero.string_of_uint.
  destruct (Z.to_int z) as [d|d]; destruct d; simpl; auto using str_uint_line_free.
Qed.

Lemma py_repr_line_free (v : pyval) : line_free (py_repr v) = true.
Proof.
  induction v as [| b | z | s | l IH | d IH] using pyval_ind'; simpl.
  - reflexivity.
  - now destruct b.
  - apply str_int_line_free.
  - apply repr_str_line_free.
  - rewrite line_free_app, line_free_concat; [reflexivity|reflexivity|].
    apply Forall_map. exact IH.
  - rewrite line_free_app, line_free_concat; [reflexivity|reflexivity|].
    apply Forall_map. eapply Forall_impl; [|exact IH].
    intros [k x] Hx. simpl in Hx.
    change (line_free (repr_str k ++ ": " ++ py_repr x) = true).
    rewrite !line_free_app, repr_str_line_free, Hx. reflexivity.
Qed.

(** X14: [str()] of a [RecordMessageWithSequence] is one line: whatever
    the record holds, the text has no line feed and no carriage return,
    since every string in it is written with [repr]. *)
Theorem rms_str_line_free (m : record_message_with_sequence) :
  line_free (rms_str m) = true.
Proof. apply py_repr_line_free. Qed.

Lemma rms_repr_record (tn : string) (w : dict) (lm : datetime) :
  rms_repr (RecordMessageWithSequence (RecordMessage tn w None None) lm)
  = ("RecordMessageWithSequence(" ++
     String.concat ", " ["type=RECORD"; "stream=" ++ tn;
                         "record=" ++ py_repr (PDict w);
                         "sequence=" ++ str_int (timestamp_int lm)] ++ ")").
Proof. reflexivity. Qed.

(** X15: [repr()] of a message built by [sync_table_file] has a line feed
    or carriage return exactly when the table name has one: the stream
    name is written with [str], unquoted, and everything else is one line. *)
Theorem rms_repr_line_free (tn : string) (w : dict) (lm : datetime) :
  line_free (rms_repr (RecordMessageWithSequence
                         (RecordMessage tn w None None) lm)) = line_free tn.
Proof.
  rewrite rms_repr_record. cbn [String.concat].
  rewrite !line_free_app, py_repr_line_free, str_int_line_free.
  simpl. now destruct (line_free tn).
Qed.

Section Extras.
Context {module file_handle metadata_map : Type}.
Variable E : collaborators module file_handle metadata_map.

(** X1: a file that syncs without raising was read from a finite row
    iterator [pre]; one RECORD message was written per row, in row order;
    the [i]-th row (from 0) was merged with line number [i + 2] before
    the transform; and the count returned is the number of rows. *)
Theorem sync_table_file_rows_in_order (config : dict) (path : string)
  (spec : table_spec) (stream : stream_entry) (lm : datetime)
  (tr : list event) (k : Z) :
  sync_table_file E config path spec stream lm = (tr, Ok k) ->
  exists bucket h m pre ws,
    getitem config "bucket" = Ok bucket /\
    get_file_handle E config path = Ok h /\
    snd (resolve_encoding_module E config) = Ok m /\
    get_row_iterator E m h spec = Ok (rows_of pre RNil) /\
    k = Z.of_nat (List.length pre) /\
    messages tr
      = map (fun w => rms_asdict (RecordMessageWithSequence
                          (RecordMessage (table_name spec) w None None) lm)) ws /\
    List.length ws = List.length pre /\
    (forall i row w, nth_error pre i = Some row -> nth_error ws i = Some w ->
       transform E (enrich row bucket path (Z.of_nat i)) (schema stream)
         (to_map E (metadata stream)) = Ok w).
Proof. apply sync_table_file_ok_inv. Qed.

(** X2: a table sync that returns [n] has written exactly [n] messages,
    and exactly one state per file of the listing. *)
Theorem sync_stream_counts (config state : dict) (spec : table_spec)
  (stream : stream_entry) (st' : dict) (tr : list event) (n : Z) :
  sync_stream E config state spec stream = (st', tr, Ok n) ->
  n = Z.of_nat (List.length (messages tr)) /\
  exists since files,
    listing_since E config spec state = Ok since /\
    get_input_files_for_table E config spec since = Ok files /\
    List.length (state_writes tr) = List.length files.
Proof.
  unfold sync_stream. intros H.
  destruct (listing_since E config spec state) as [since|e] eqn:Hs;
    [|discriminate].
  destruct (get_input_files_for_table E config spec since) as [files|e] eqn:Hl;
    [|discriminate].
  destruct (sync_files_count E _ _ _ _ _ _ _ _ _ H) as [Hn Hw].
  split; [lia|]. exists since, files.
  split; [first [exact Hs|reflexivity]|]. split; [first [exact Hl|reflexivity]|].
  rewrite Hw. apply Permutation_length, sort_by_lm_perm.
Qed.

(** X3: whatever the outcome, the [sequence] values of the messages a
    table sync writes never decrease along the trace. *)
Theorem sync_stream_sequences_sorted (config state : dict) (spec : table_spec)
  (stream : stream_entry) (st' : dict) (tr : list event) (r : result Z) :
  sync_stream E config state spec stream = (st', tr, r) ->
  Sorted Z.le (sequences tr).
Proof.
  intros H. apply StronglySorted_Sorted.
  destruct (sync_stream_outcome E _ _ _ _ _ _ _ H)
    as (done_ & rest & sts & Hs & Hcs & -> & _).
  rewrite sequences_app, sequences_files_trace, sequences_file_traces,
    <- flat_map_app by exact (commits_length E _ _ _ _ Hcs).
  apply sorted_flat_map; [exact Hs|]. intros f.
  apply sync_table_file_sequences.
Qed.

(** X4: whatever the outcome, the [modified_since] bookmarks of the
    states written during a table sync are the ISO forms of a
    non-decreasing list of datetimes. *)
Theorem sync_stream_watermarks_monotone (config state : dict) (spec : table_spec)
  (stream : stream_entry) (st' : dict) (tr : list event) (r : result Z) :
  sync_stream E config state spec stream = (st', tr, r) ->
  exists ds, Sorted Z.le ds /\
    map (fun s => get_bookmark s (table_name spec) "modified_since")
      (state_writes tr)
    = map (fun d => Ok (PStr (isoformat E d))) ds.
Proof.
  intros H.
  destruct (sync_stream_outcome E _ _ _ _ _ _ _ H)
    as (done_ & rest & sts & Hs & Hcs & -> & _).
  rewrite state_writes_app, state_writes_files_trace, state_writes_file_traces,
    app_nil_r by exact (commits_length E _ _ _ _ Hcs).
  apply StronglySorted_app_inv in Hs. destruct Hs as [Hs _].
  exists (map last_modified done_). split.
  - apply StronglySorted_Sorted. clear -Hs.
    induction Hs as [|f l Hs IH Hhd]; simpl; constructor; [exact IH|].
    apply Forall_map. exact Hhd.
  - pose proof (commits_watermarks E _ _ _ _ Hcs) as Hw. clear -Hw.
    induction Hw as [|f s fs ss Hfs _ IH]; [reflexivity|]. simpl.
    rewrite IH. f_equal. exact Hfs.
Qed.

(** X5: whatever the outcome, every state written during a table sync is
    the caller's state with exactly one write of the table's
    [modified_since] bookmark, set to the ISO form of some watermark. *)
Theorem sync_stream_writes_frame (config state : dict) (spec : table_spec)
  (stream : stream_entry) (st' : dict) (tr : list event) (r : result Z) :
  sync_stream E config state spec stream = (st', tr, r) ->
  Forall (fun s => exists d,
            write_bookmark state (table_name spec) "modified_since"
              (PStr (isoformat E d)) = Ok s) (state_writes tr).
Proof.
  intros H.
  destruct (sync_stream_outcome E _ _ _ _ _ _ _ H)
    as (done_ & rest & sts & _ & Hcs & -> & _).
  rewrite state_writes_app, state_writes_files_trace, state_writes_file_traces,
    app_nil_r by exact (commits_length E _ _ _ _ Hcs).
  exact (proj1 (commits_writes E _ _ _ _ Hcs)).
Qed.

(** X6: whatever the outcome, the state left in the caller's dict is the
    last state written, or the caller's state when none was written. *)
Theorem sync_stream_final_state_last_written (config state : dict)
  (spec : table_spec) (stream : stream_entry) (st' : dict) (tr : list event)
  (r : result Z) :
  sync_stream E config state spec stream = (st', tr, r) ->
  st' = last (state_writes tr) state.
Proof.
  intros H.
  destruct (sync_stream_outcome E _ _ _ _ _ _ _ H)
    as (done_ & rest & sts & _ & Hcs & -> & ->).
  rewrite state_writes_app, state_writes_files_trace, state_writes_file_traces,
    app_nil_r by exact (commits_length E _ _ _ _ Hcs).
  reflexivity.
Qed.

(** X7: with no [bucket] in the configuration and a non-empty listing,
    the sync raises [KeyError('bucket')] on its first file, before
    writing anything and with the state unchanged. *)
Theorem sync_stream_missing_bucket (config state : dict) (spec : table_spec)
  (stream : stream_entry) (since : datetime) (f : s3file) (files : list s3file) :
  dict_get config "bucket" = None ->
  listing_since E config spec state = Ok since ->
  get_input_files_for_table E config spec since = Ok (f :: files) ->
  sync_stream E config state spec stream = (state, [], Err (KeyError "bucket")).
Proof.
  intros Hb Hs Hl. unfold sync_stream. rewrite Hs, Hl.
  pose proof (sort_by_lm_perm (f :: files)) as Hp.
  destruct (sort_by_lm (f :: files)) as [|g gs].
  - apply Permutation_nil in Hp. discriminate.
  - simpl. unfold sync_table_file, bind at 1, lift at 1, getitem.
    rewrite Hb. reflexivity.
Qed.

(** X8: when the table's bookmark is falsy (missing, [None] or the empty
    string) and the configuration has no [start_date], the sync raises
    [KeyError('start_date')] before listing, writing nothing. *)
Theorem sync_stream_missing_start_date (config state : dict) (spec : table_spec)
  (stream : stream_entry) (b : pyval) :
  get_bookmark state (table_name spec) "modified_since" = Ok b ->
  truthy b = false ->
  dict_get config "start_date" = None ->
  sync_stream E config state spec stream
    = (state, [], Err (KeyError "start_date")).
Proof.
  intros Hb Ht Hs. unfold sync_stream, listing_since.
  rewrite Hb, Ht. unfold getitem. rewrite Hs. reflexivity.
Qed.

(** X9: when the state's [bookmarks] entry, or the table's entry in it,
    is present but not a dict (also [None]), the sync raises
    [AttributeError] before listing, writing nothing. *)
Theorem sync_stream_malformed_bookmarks (config state : dict)
  (spec : table_spec) (stream : stream_entry) :
  (exists v, dict_get state "bookmarks" = Some v /\ is_dict v = false) \/
  (exists bms v, dict_get state "bookmarks" = Some (PDict bms) /\
     dict_get bms (table_name spec) = Some v /\ is_dict v = false) ->
  sync_stream E config state spec stream = (state, [], Err AttributeError).
Proof.
  intros H.
  assert (Hg : get_bookmark state (table_name spec) "modified_since"
               = Err AttributeError).
  { unfold get_bookmark, get_sub.
    destruct H as [(v & Hv & Hd) | (bms & v & Hbms & Hv & Hd)].
    - rewrite Hv. destruct v; try discriminate; reflexivity.
    - rewrite Hbms, Hv. destruct v; try discriminate; reflexivity. }
  unfold sync_stream, listing_since. now rewrite Hg.
Qed.

(** X10: when importing the configured encoding module raises anything
    other than [ModuleNotFoundError], [sync_table_file] raises the same
    exception right after the import attempt: no warning, no fallback to
    the default module, no row read. *)
Theorem sync_table_file_import_raises (config : dict) (path : string)
  (spec : table_spec) (stream : stream_entry) (lm : datetime) (name : pyval)
  (bucket : pyval) (h : file_handle) (e : exn) :
  getitem config "bucket" = Ok bucket ->
  get_file_handle E config path = Ok h ->
  dict_get config "encoding_module" = Some name ->
  import_module E name = ImportRaised e ->
  sync_table_file E config path spec stream lm = ([EvImportModule name], Err e).
Proof.
  intros Hb Hh Hn Hi. unfold sync_table_file, resolve_encoding_module.
  rewrite Hb, Hh, Hn, Hi. reflexivity.
Qed.

(** X11: without an [encoding_module] key, [sync_table_file] attempts no
    import and logs no warning: every event it emits is a message. *)
Theorem sync_table_file_no_module_key (config : dict) (path : string)
  (spec : table_spec) (stream : stream_entry) (lm : datetime) :
  dict_get config "encoding_module" = None ->
  Forall (fun ev => exists m, ev = EvMessage m)
    (fst (sync_table_file E config path spec stream lm)).
Proof.
  intros Hn.
  assert (Hall : all_events (fun ev => exists m, ev = EvMessage m)
                   (sync_table_file E config path spec stream lm)).
  { unfold sync_table_file.
    apply all_events_bind; [apply all_events_lift|]. intros bucket _.
    apply all_events_bind; [apply all_events_lift|]. intros h _.
    unfold resolve_encoding_module. rewrite Hn.
    apply all_events_bind; [apply all_events_ret|]. intros m _.
    unfold sync_file_with.
    apply all_events_bind; [apply all_events_lift|]. intros it _.
    apply sync_rows_events. intros. eexists. reflexivity. }
  exact Hall.
Qed.

(** X12: a listing already in [last_modified] order is processed in the
    listing's own order. *)
Theorem sync_stream_sorted_listing (config state : dict) (spec : table_spec)
  (stream : stream_entry) (since : datetime) (files : list s3file) :
  listing_since E config spec state = Ok since ->
  get_input_files_for_table E config spec since = Ok files ->
  Sorted lm_le files ->
  sync_stream E config state spec stream
    = sync_files E config spec stream files 0 state.
Proof.
  intros Hs Hl Hsort. unfold sync_stream. rewrite Hs, Hl.
  now rewrite sort_by_lm_sorted_id.
Qed.

End Extras.

Lemma keys_dict_set (d : dict) (k : string) (v : pyval) :
  map fst (dict_set d k v)
  = if existsb (String.eqb k) (map fst d) then map fst d
    else (map fst d ++ [k])%list.
Proof.
  induction d as [|[k' v'] d IH]; simpl; [reflexivity|].
  destruct (String.eqb k k'); simpl; [reflexivity|]. rewrite IH.
  now destruct (existsb (String.eqb k) (map fst d)).
Qed.

(** X13: the merged row [{**row, **custom_columns}] keeps the row's keys
    in their order, and appends the reserved columns missing from the row
    in the order bucket, file, line number; a reserved column already in
    the row keeps its position. *)
Theorem enrich_key_order (row : dict) (bucket : pyval) (path : string) (rs : Z) :
  map fst (enrich row bucket path rs)
  = (map fst row ++
     filter (fun k => negb (existsb (String.eqb k) (map fst row)))
       [SDC_SOURCE_BUCKET_COLUMN; SDC_SOURCE_FILE_COLUMN;
        SDC_SOURCE_LINENO_COLUMN])%list.
Proof.
  unfold enrich, dict_merge, custom_columns. cbn [fold_left].
  rewrite !keys_dict_set. cbn [filter].
  assert (E1 : String.eqb SDC_SOURCE_FILE_COLUMN SDC_SOURCE_BUCKET_COLUMN = false)
    by reflexivity.
  assert (E2 : String.eqb SDC_SOURCE_LINENO_COLUMN SDC_SOURCE_BUCKET_COLUMN = false)
    by reflexivity.
  assert (E3 : String.eqb SDC_SOURCE_LINENO_COLUMN SDC_SOURCE_FILE_COLUMN = false)
    by reflexivity.
  destruct (existsb (String.eqb SDC_SOURCE_BUCKET_COLUMN) (map fst row)) eqn:Hb;
  destruct (existsb (String.eqb SDC_SOURCE_FILE_COLUMN) (map fst row)) eqn:Hf;
  destruct (existsb (String.eqb SDC_SOURCE_LINENO_COLUMN) (map fst row)) eqn:Hl;
  rewrite ?existsb_app, ?Hf, ?Hl;
  cbn [existsb filter negb orb];
  rewrite ?E1, ?E2, ?E3; cbn [existsb filter negb orb];
  rewrite ?existsb_app, ?Hl; cbn [existsb filter negb orb];
  rewrite ?E1, ?E2, ?E3; cbn [existsb filter negb orb];
  rewrite <- ?app_assoc, ?app_nil_r; reflexivity.
Qed.

(** ** Witnesses of the extra properties on the demo bucket *)

Lemma sync_table_file_rows_in_order_witness :
  sync_table_file (demo_env demo_objects) (demo_config None) "two.csv" demo_spec
    demo_stream 1580515200000000
  = (fst (sync_table_file (demo_env demo_objects) (demo_config None) "two.csv"
            demo_spec demo_stream 1580515200000000), Ok 2) /\
  exists bucket h m pre ws,
    getitem (demo_config None) "bucket" = Ok bucket /\
    get_file_handle (demo_env demo_objects) (demo_config None) "two.csv" = Ok h /\
    snd (resolve_encoding_module (demo_env demo_objects) (demo_config None)) = Ok m /\
    get_row_iterator (demo_env demo_objects) m h demo_spec = Ok (rows_of pre RNil) /\
    2 = Z.of_nat (List.length pre) /\
    messages (fst (sync_table_file (demo_env demo_objects) (demo_config None)
                     "two.csv" demo_spec demo_stream 1580515200000000))
      = map (fun w => rms_asdict (RecordMessageWithSequence
                          (RecordMessage (table_name demo_spec) w None None)
                          1580515200000000)) ws /\
    List.length ws = List.length pre /\
    (forall i row w, nth_error pre i = Some row -> nth_error ws i = Some w ->
       transform (demo_env demo_objects) (enrich row (PStr "my-bucket") "two.csv"
         (Z.of_nat i)) (schema demo_stream)
         (to_map (demo_env demo_objects) (metadata demo_stream)) = Ok w).
Proof.
  assert (H : sync_table_file (demo_env demo_objects) (demo_config None) "two.csv"
                demo_spec demo_stream 1580515200000000
    = (fst (sync_table_file (demo_env demo_objects) (demo_config None) "two.csv"
              demo_spec demo_stream 1580515200000000), Ok 2))
    by (vm_compute; reflexivity).
  split; [exact H|].
  destruct (sync_table_file_rows_in_order (demo_env demo_objects) _ _ _ _ _ _ _ H)
    as (bucket & h & m & pre & ws & Hb & Hh & Hm & Hi & Hk & Hms & Hlen & Hall).
  assert (Hb' : bucket = PStr "my-bucket")
    by (vm_compute in Hb; now inversion Hb).
  subst bucket.
  exists (PStr "my-bucket"), h, m, pre, ws. repeat split; assumption.
Defined.

Lemma sync_stream_counts_witness :
  demo_run demo_objects None
    = (fst (fst (demo_run demo_objects None)), snd (fst (demo_run demo_objects None)),
       Ok 2) /\
  2 = Z.of_nat (List.length (messages (snd (fst (demo_run demo_objects None))))) /\
  exists since files,
    listing_since (demo_env demo_objects) (demo_config None) demo_spec [] = Ok since /\
    get_input_files_for_table (demo_env demo_objects) (demo_config None) demo_spec
      since = Ok files /\
    List.length (state_writes (snd (fst (demo_run demo_objects None))))
      = List.length files.
Proof.
  assert (H : demo_run demo_objects None
    = (fst (fst (demo_run demo_objects None)), snd (fst (demo_run demo_objects None)),
       Ok 2)) by (vm_compute; reflexivity).
  split; [exact H|].
  exact (sync_stream_counts (demo_env demo_objects) (demo_config None) []
           demo_spec demo_stream _ _ 2 H).
Defined.

Lemma sync_stream_sequences_sorted_witness :
  demo_run demo_bad_objects None
    = (fst (fst (demo_run demo_bad_objects None)),
       snd (fst (demo_run demo_bad_objects None)),
       Err (ExternalError "decode")) /\
  sequences (snd (fst (demo_run demo_bad_objects None)))
    = [1580515200; 1583020800] /\
  Sorted Z.le (sequences (snd (fst (demo_run demo_bad_objects None)))).
Proof.
  assert (H : demo_run demo_bad_objects None
    = (fst (fst (demo_run demo_bad_objects None)),
       snd (fst (demo_run demo_bad_objects None)),
       Err (ExternalError "decode"))) by (vm_compute; reflexivity).
  split; [exact H|]. split; [vm_compute; reflexivity|].
  exact (sync_stream_sequences_sorted (demo_env demo_bad_objects) (demo_config None)
           [] demo_spec demo_stream _ _ _ H).
Defined.

Lemma sync_stream_watermarks_monotone_witness :
  demo_run demo_bad_objects None
    = (fst (fst (demo_run demo_bad_objects None)),
       snd (fst (demo_run demo_bad_objects None)),
       Err (ExternalError "decode")) /\
  exists ds, Sorted Z.le ds /\
    map (fun s => get_bookmark s (table_name demo_spec) "modified_since")
      (state_writes (snd (fst (demo_run demo_bad_objects None))))
    = map (fun d => Ok (PStr (isoformat (demo_env demo_bad_objects) d))) ds.
Proof.
  assert (H : demo_run demo_bad_objects None
    = (fst (fst (demo_run demo_bad_objects None)),
       snd (fst (demo_run demo_bad_objects None)),
       Err (ExternalError "decode"))) by (vm_compute; reflexivity).
  split; [exact H|].
  exact (sync_stream_watermarks_monotone (demo_env demo_bad_objects)
           (demo_config None) [] demo_spec demo_stream _ _ _ H).
Defined.

Lemma sync_stream_writes_frame_witness :
  demo_run demo_bad_objects None
    = (fst (fst (demo_run demo_bad_objects None)),
       snd (fst (demo_run demo_bad_objects None)),
       Err (ExternalError "decode")) /\
  state_writes (snd (fst (demo_run demo_bad_objects None))) = [demo_state_after_a] /\
  Forall (fun s => exists d,
            write_bookmark [] (table_name demo_spec) "modified_since"
              (PStr (isoformat (demo_env demo_bad_objects) d)) = Ok s)
    (state_writes (snd (fst (demo_run demo_bad_objects None)))).
Proof.
  assert (H : demo_run demo_bad_objects None
    = (fst (fst (demo_run demo_bad_objects None)),
       snd (fst (demo_run demo_bad_objects None)),
       Err (ExternalError "decode"))) by (vm_compute; reflexivity).
  split; [exact H|]. split; [vm_compute; reflexivity|].
  exact (sync_stream_writes_frame (demo_env demo_bad_objects)
           (demo_config None) [] demo_spec demo_stream _ _ _ H).
Defined.

Lemma sync_stream_final_state_last_written_witness :
  demo_run demo_bad_objects None
    = (fst (fst (demo_run demo_bad_objects None)),
       snd (fst (demo_run demo_bad_objects None)),
       Err (ExternalError "decode")) /\
  fst (fst (demo_run demo_bad_objects None))
    = last (state_writes (snd (fst (demo_run demo_bad_objects None)))) [].
Proof.
  assert (H : demo_run demo_bad_objects None
    = (fst (fst (demo_run demo_bad_objects None)),
       snd (fst (demo_run demo_bad_objects None)),
       Err (ExternalError "decode"))) by (vm_compute; reflexivity).
  split; [exact H|].
  exact (sync_stream_final_state_last_written (demo_env demo_bad_objects)
           (demo_config None) [] demo_spec demo_stream _ _ _ H).
Defined.

Lemma sync_stream_missing_bucket_witness :
  dict_get demo_config_no_bucket "bucket" = None /\
  listing_since (demo_env demo_objects) demo_config_no_bucket demo_spec []
    = Ok 1577836800000000 /\
  get_input_files_for_table (demo_env demo_objects) demo_config_no_bucket demo_spec
    1577836800000000
    = Ok (S3File "b.csv" 1583020800000000 10 :: [S3File "a.csv" 1580515200000000 10]) /\
  sync_stream (demo_env demo_objects) demo_config_no_bucket [] demo_spec demo_stream
    = ([], [], Err (KeyError "bucket")).
Proof.
  assert (H1 : dict_get demo_config_no_bucket "bucket" = None) by reflexivity.
  assert (H2 : listing_since (demo_env demo_objects) demo_config_no_bucket demo_spec []
                 = Ok 1577836800000000) by (vm_compute; reflexivity).
  assert (H3 : get_input_files_for_table (demo_env demo_objects) demo_config_no_bucket
                 demo_spec 1577836800000000
    = Ok (S3File "b.csv" 1583020800000000 10 :: [S3File "a.csv" 1580515200000000 10]))
    by (vm_compute; reflexivity).
  split; [exact H1|]. split; [exact H2|]. split; [exact H3|].
  exact (sync_stream_missing_bucket (demo_env demo_objects) demo_config_no_bucket []
           demo_spec demo_stream _ _ _ H1 H2 H3).
Defined.

Lemma sync_stream_missing_start_date_witness :
  get_bookmark demo_state_empty_bookmark (table_name demo_spec) "modified_since"
    = Ok (PStr "") /\
  truthy (PStr "") = false /\
  dict_get demo_config_no_start "start_date" = None /\
  sync_stream (demo_env demo_objects) demo_config_no_start demo_state_empty_bookmark
    demo_spec demo_stream
    = (demo_state_empty_bookmark, [], Err (KeyError "start_date")).
Proof.
  assert (H1 : get_bookmark demo_state_empty_bookmark (table_name demo_spec)
                 "modified_since" = Ok (PStr "")) by (vm_compute; reflexivity).
  assert (H2 : truthy (PStr "") = false) by reflexivity.
  assert (H3 : dict_get demo_config_no_start "start_date" = None) by reflexivity.
  split; [exact H1|]. split; [exact H2|]. split; [exact H3|].
  exact (sync_stream_missing_start_date (demo_env demo_objects) demo_config_no_start
           demo_state_empty_bookmark demo_spec demo_stream _ H1 H2 H3).
Defined.

Lemma sync_stream_malformed_bookmarks_witness :
  dict_get demo_state_none_bookmarks "bookmarks" = Some PNone /\
  is_dict PNone = false /\
  sync_stream (demo_env demo_objects) (demo_config None) demo_state_none_bookmarks
    demo_spec demo_stream = (demo_state_none_bookmarks, [], Err AttributeError).
Proof.
  assert (H1 : dict_get demo_state_none_bookmarks "bookmarks" = Some PNone)
    by reflexivity.
  assert (H2 : is_dict PNone = false) by reflexivity.
  split; [exact H1|]. split; [exact H2|].
  exact (sync_stream_malformed_bookmarks (demo_env demo_objects) (demo_config None)
           demo_state_none_bookmarks demo_spec demo_stream
           (or_introl (ex_intro _ PNone (conj H1 H2)))).
Defined.

Lemma sync_table_file_import_raises_witness :
  getitem demo_config_bad_module "bucket" = Ok (PStr "my-bucket") /\
  get_file_handle (demo_env demo_objects) demo_config_bad_module "a.csv" = Ok "a.csv" /\
  dict_get demo_config_bad_module "encoding_module" = Some PNone /\
  import_module (demo_env demo_objects) PNone = ImportRaised TypeError /\
  sync_table_file (demo_env demo_objects) demo_config_bad_module "a.csv" demo_spec
    demo_stream 1580515200000000 = ([EvImportModule PNone], Err TypeError).
Proof.
  assert (H1 : getitem demo_config_bad_module "bucket" = Ok (PStr "my-bucket"))
    by reflexivity.
  assert (H2 : get_file_handle (demo_env demo_objects) demo_config_bad_module "a.csv"
                 = Ok "a.csv") by reflexivity.
  assert (H3 : dict_get demo_config_bad_module "encoding_module" = Some PNone)
    by reflexivity.
  assert (H4 : import_module (demo_env demo_objects) PNone = ImportRaised TypeError)
    by reflexivity.
  split; [exact H1|]. split; [exact H2|]. split; [exact H3|]. split; [exact H4|].
  exact (sync_table_file_import_raises (demo_env demo_objects) demo_config_bad_module
           "a.csv" demo_spec demo_stream 1580515200000000 _ _ _ _ H1 H2 H3 H4).
Defined.

Lemma sync_table_file_no_module_key_witness :
  dict_get (demo_config None) "encoding_module" = None /\
  Forall (fun ev => exists m, ev = EvMessage m)
    (fst (sync_table_file (demo_env demo_objects) (demo_config None) "two.csv"
            demo_spec demo_stream 1580515200000000)).
Proof.
  assert (H : dict_get (demo_config None) "encoding_module" = None) by reflexivity.
  split; [exact H|].
  exact (sync_table_file_no_module_key (demo_env demo_objects) (demo_config None)
           "two.csv" demo_spec demo_stream 1580515200000000 H).
Defined.

Lemma sync_stream_sorted_listing_witness :
  listing_since (demo_env (rev demo_objects)) (demo_config None) demo_spec []
    = Ok 1577836800000000 /\
  get_input_files_for_table (demo_env (rev demo_objects)) (demo_config None) demo_spec
    1577836800000000 = Ok (rev demo_objects) /\
  Sorted lm_le (rev demo_objects) /\
  sync_stream (demo_env (rev demo_objects)) (demo_config None) [] demo_spec demo_stream
    = sync_files (demo_env (rev demo_objects)) (demo_config None) demo_spec
        demo_stream (rev demo_objects) 0 [].
Proof.
  assert (H1 : listing_since (demo_env (rev demo_objects)) (demo_config None)
                 demo_spec [] = Ok 1577836800000000) by (vm_compute; reflexivity).
  assert (H2 : get_input_files_for_table (demo_env (rev demo_objects))
                 (demo_config None) demo_spec 1577836800000000
               = Ok (rev demo_objects)) by (vm_compute; reflexivity).
  assert (H3 : Sorted lm_le (rev demo_objects)).
  { simpl. repeat constructor. unfold lm_le. simpl. lia. }
  split; [exact H1|]. split; [exact H2|]. split; [exact H3|].
  exact (sync_stream_sorted_listing (demo_env (rev demo_objects)) (demo_config None)
           [] demo_spec demo_stream _ _ H1 H2 H3).
Defined.
